(** * Latin-hypercube designs: a model of [design.py]

    The development embeds [generate_lhs], [Design.__init__] and
    [Design.write_files] of [src/design.py] and states the properties of the
    design pipeline over that embedding.

    Conventions.
    - A Python [str] is a [string]; an [int] is a [Z].
    - A float is an exact rational: rounding, overflow and underflow are not
      modelled, so what is stated of a number holds of the double up to
      these.  The quotient of two numpy scalars also ranges over the IEEE
      special values, which is what the type [float64] adds; a quotient of
      finite numbers by a number other than zero stays finite here.
    - R is taken to be installed and to print numbers: the sampler sees the
      exit status of a run and the numbers on its lines.
    - The effects of the program (standard output, the file system, the runs
      of the R interpreter, the calls of [write_module_inputs]) are kept in a
      [world]; a computation maps a world to a world and either a value or
      the exception that stopped it, so that what was already done when an
      exception is raised stays visible. *)

From Stdlib Require Import List String Ascii ZArith QArith Lia Lqa Bool.
From Stdlib Require Import DecimalString DecimalZ DecimalPos.
Import ListNotations.

Local Open Scope list_scope.
Local Open Scope string_scope.

(** ** Python values *)

Module Py.

(** The subscript of a failed lookup: an [int] or a [str]. *)
Inductive key :=
| KInt (z : Z)
| KStr (s : string).

(** The exceptions the module can raise.  A [CalledProcessError] shows its
    exit status and its command. *)
Inductive exn :=
| KeyError (k : key)
| IndexError
| TypeError
| ValueError
| CalledProcessError (returncode : Z) (cmd : list string).

Inductive result (A : Type) :=
| Ok (a : A)
| Raise (e : exn).
Arguments Ok {A} a.
Arguments Raise {A} e.

Definition and_then {A B} (r : result A) (k : A -> result B) : result B :=
  match r with
  | Ok a => k a
  | Raise e => Raise e
  end.

(** [str(i)] for an [int]. *)
Definition str_int (z : Z) : string := NilZero.string_of_int (Z.to_int z).

(** [range(n)]: empty when [n <= 0]. *)
Definition range (n : Z) : list Z := map Z.of_nat (seq 0 (Z.to_nat n)).

(** [l[i]] for a list. *)
Definition index {A} (l : list A) (i : Z) : result A :=
  match nth_error l (Z.to_nat i) with
  | Some x => if Z.leb 0 i then Ok x else Raise IndexError
  | None => Raise IndexError
  end.

(** A dict literal with [int] keys, subscripted: [{k1: v1, ...}[k]]. *)
Fixpoint subscript {A} (tbl : list (Z * A)) (k : Z) : result A :=
  match tbl with
  | [] => Raise (KeyError (KInt k))
  | (k', v) :: tbl' => if Z.eqb k' k then Ok v else subscript tbl' k
  end.

(** *** Dicts with [str] keys

    A dict keeps its keys in insertion order, and [write_files] iterates
    over one: it is an association list without repeated keys. *)
Section Dict.
Context {V : Type}.

Definition dict := list (string * V).

(** [d[k]] *)
Fixpoint getitem (d : dict) (k : string) : result V :=
  match d with
  | [] => Raise (KeyError (KStr k))
  | (k', v) :: d' => if String.eqb k' k then Ok v else getitem d' k
  end.

(** [d[k] = v]: a known key keeps its place, a new one goes last. *)
Fixpoint setitem (d : dict) (k : string) (v : V) : dict :=
  match d with
  | [] => [(k, v)]
  | (k', v') :: d' =>
      if String.eqb k' k then (k', v) :: d' else (k', v') :: setitem d' k v
  end.

(** [d.pop(k)]: the value and the dict without the key. *)
Fixpoint pop (d : dict) (k : string) : result (V * dict) :=
  match d with
  | [] => Raise (KeyError (KStr k))
  | (k', v) :: d' =>
      if String.eqb k' k then Ok (v, d')
      else match pop d' k with
           | Ok (x, d'') => Ok (x, (k', v) :: d'')
           | Raise e => Raise e
           end
  end.

(** [d.update(pairs)], and [dict(pairs)] from the empty dict. *)
Definition update (d : dict) (pairs : list (string * V)) : dict :=
  fold_left (fun acc kv => setitem acc (fst kv) (snd kv)) pairs d.

Definition keys (d : dict) : list string := map fst d.
End Dict.
Arguments dict V : clear implicits.

End Py.
Import Py.

Notation "'let!' x ':=' r 'in' k" := (and_then r (fun x => k))
  (at level 10, x pattern, r at level 100, k at level 200).

(** ** Numbers *)

Module Np.

(** A numpy [float64] scalar.  [Inf true] is [-inf]. *)
Inductive float64 :=
| Finite (q : Q)
| Inf (negative : bool)
| NaN.

Definition Qneg (q : Q) : bool := negb (Qle_bool 0 q).
Definition Qzero (q : Q) : bool := Qeq_bool q 0.

(** [x * y] *)
Definition mul (x y : float64) : float64 :=
  match x, y with
  | NaN, _ | _, NaN => NaN
  | Finite a, Finite b => Finite (a * b)
  | Finite a, Inf s | Inf s, Finite a =>
      if Qzero a then NaN else Inf (xorb s (Qneg a))
  | Inf s, Inf s' => Inf (xorb s s')
  end.

(** [x ** n] for a literal [n]. *)
Fixpoint pow (x : float64) (n : nat) : float64 :=
  match n with
  | O => Finite 1
  | S n' => mul x (pow x n')
  end.

(** [x / y] on numpy scalars.  A zero divisor does not raise: numpy warns
    and returns [inf], [-inf] or [nan], as IEEE 754 has it.  The zero of the
    model is [+0.0], which is the zero that [0.0 + 0.3 * 0] gives: the
    quotient has the sign of the dividend.  A divisor other than zero gives
    the exact quotient: that a double would overflow to [inf] for a divisor
    close to zero is not shown, and the properties that depend on it keep
    the divisor away from zero. *)
Definition div (x y : float64) : float64 :=
  match x, y with
  | NaN, _ | _, NaN => NaN
  | Finite a, Finite b =>
      if Qzero b then (if Qzero a then NaN else Inf (Qneg a))
      else Finite (a / b)
  | Finite _, Inf _ => Finite 0
  | Inf s, Finite b => Inf (xorb s (Qneg b))
  | Inf _, Inf _ => NaN
  end.

(** Broadcasting of two one-dimensional operands: equal lengths pair up, a
    length-one operand is repeated, anything else is a shape error. *)
Definition broadcast {A B} (a : list A) (b : list B) : option (list (A * B)) :=
  if Nat.eqb (List.length a) (List.length b) then Some (combine a b)
  else match a, b with
       | [x], _ => Some (map (pair x) b)
       | _, [y] => Some (map (fun x => (x, y)) a)
       | _, _ => None
       end.

Definition zip_with (f : Q -> Q -> Q) (a b : list Q) : result (list Q) :=
  match broadcast a b with
  | Some ps => Ok (map (fun p => f (fst p) (snd p)) ps)
  | None => Raise ValueError
  end.

(** An array of rank one or two. *)
Inductive ndarray :=
| Arr1 (v : list Q)
| Arr2 (rows : list (list Q)).

(** [np.array(rows, dtype=float)]: no row gives the empty rank-one array,
    rows of one length give a matrix, ragged rows are refused. *)
Definition array (rows : list (list Q)) : result ndarray :=
  match rows with
  | [] => Ok (Arr1 [])
  | r :: rs =>
      if forallb (fun r' => Nat.eqb (List.length r') (List.length r)) rs
      then Ok (Arr2 rows) else Raise ValueError
  end.

Fixpoint map_rows (f : list Q -> result (list Q)) (rows : list (list Q))
  : result (list (list Q)) :=
  match rows with
  | [] => Ok []
  | r :: rs =>
      match f r with
      | Raise e => Raise e
      | Ok r' => match map_rows f rs with
                 | Raise e => Raise e
                 | Ok rs' => Ok (r' :: rs')
                 end
      end
  end.

(** [v op a] for a rank-one [v]: along the last axis of [a]. *)
Definition vec_op (f : Q -> Q -> Q) (v : list Q) (a : ndarray) : result ndarray :=
  match a with
  | Arr1 w => match zip_with f v w with
              | Ok r => Ok (Arr1 r)
              | Raise e => Raise e
              end
  | Arr2 rows => match map_rows (zip_with f v) rows with
                 | Ok rs => Ok (Arr2 rs)
                 | Raise e => Raise e
                 end
  end.

End Np.

(** ** Effects *)

(** What a parameter dict holds: numbers, and the projectile name. *)
Inductive value :=
| VFloat (x : Np.float64)
| VStr (s : string).

(** Modelled from the spec: [write_module_inputs], of the module
    [design_write_module_inputs], is not in the source.  It takes the
    parameters of one design point with the data of the system, the output
    directory and the id of the point; a call is recorded argument by
    argument, and the files it writes on its own are left out. *)
Module ModuleInputs.

Record call := {
  outdir : string;
  design_point_id : string;
  projectile : string;
  target : string;
  sqrts : Z;
  inel_nucleon_cross_section : value;
  trento_normalization : value;
  trento_fluctuation_k : value;
  trento_nucleon_width : value;
  tau_R : value;
  alpha : value;
  eta_over_s_at_kink : value;
  zeta_over_s_max : value;
  zeta_over_s_width_in_GeV : value;
  zeta_over_s_T_peak_in_GeV : value;
  zeta_over_s_lambda_asymm : value
}.

End ModuleInputs.

(** What the program has done so far.  [R_runs] lists the runs of the R
    interpreter with the numbers put into its script: seed, points,
    dimensions. *)
Record world := {
  stdout : list string;
  dirs : list string;
  files : dict string;
  R_runs : list (Z * Z * Z);
  module_inputs : list ModuleInputs.call
}.

Definition M (A : Type) : Type := world -> world * result A.

Definition ret {A} (a : A) : M A := fun w => (w, Ok a).

Definition bind {A B} (c : M A) (k : A -> M B) : M B :=
  fun w => match c w with
           | (w', Ok a) => k a w'
           | (w', Raise e) => (w', Raise e)
           end.

Definition lift {A} (r : result A) : M A := fun w => (w, r).

Notation "x <- c ;; k" := (bind c (fun x => k))
  (at level 61, c at next level, right associativity).
Notation "c ;; k" := (bind c (fun _ => k))
  (at level 61, right associativity).

(** [for x in xs: body(x)] *)
Fixpoint for_each {A} (xs : list A) (body : A -> M unit) : M unit :=
  match xs with
  | [] => ret tt
  | x :: xs' => body x ;; for_each xs' body
  end.

(** [print(s)] *)
Definition print (s : string) : M unit :=
  fun w => ({| stdout := (stdout w ++ [s])%list; dirs := dirs w; files := files w;
               R_runs := R_runs w; module_inputs := module_inputs w |}, Ok tt).

(** [p.mkdir(parents=True, exist_ok=True)]; the parents made on the way are
    not listed. *)
Definition mkdir (p : string) : M unit :=
  fun w => ({| stdout := stdout w;
               dirs := if existsb (String.eqb p) (dirs w) then dirs w
                       else (dirs w ++ [p])%list;
               files := files w;
               R_runs := R_runs w; module_inputs := module_inputs w |}, Ok tt).

Definition set_files (fs : dict string) (w : world) : world :=
  {| stdout := stdout w; dirs := dirs w; files := fs;
     R_runs := R_runs w; module_inputs := module_inputs w |}.

(** [open(p, 'w')]: the file exists and is empty from here on.  The handle
    is the path. *)
Definition open_w (p : string) : M string :=
  fun w => (set_files (setitem (files w) p "") w, Ok p).

Definition content (fs : dict string) (p : string) : string :=
  match getitem fs p with
  | Ok c => c
  | Raise _ => ""
  end.

(** [f.write(s)]: appends to what the file holds. *)
Definition write (f : string) (s : string) : M unit :=
  fun w => (set_files (setitem (files w) f (content (files w) f ++ s)) w, Ok tt).

(** [f.close()] *)
Definition close (f : string) : M unit := ret tt.

(** [write_module_inputs(...)]: the call is added to the record. *)
Definition write_module_inputs (c : ModuleInputs.call) : M unit :=
  fun w => ({| stdout := stdout w; dirs := dirs w; files := files w;
               R_runs := R_runs w;
               module_inputs := (module_inputs w ++ [c])%list |}, Ok tt).

Definition log_R_run (seed npoints ndim : Z) (w : world) : world :=
  {| stdout := stdout w; dirs := dirs w; files := files w;
     R_runs := (R_runs w ++ [(seed, npoints, ndim)])%list;
     module_inputs := module_inputs w |}.

(** [os.path.join(a, b)] for a relative [b], on the string of the path
    [a]. *)
Definition ends_with_slash (a : string) : bool :=
  match rev (list_ascii_of_string a) with
  | c :: _ => Ascii.eqb c "/"%char
  | [] => false
  end.

Definition join (a b : string) : string :=
  if String.eqb a "" then b
  else if ends_with_slash a then a ++ b
  else a ++ "/" ++ b.

(** [pathlib] on POSIX, a path being kept as its string.  A path has a root
    (none, [/], or [//] for exactly two leading slashes) and names: what
    lies between the slashes, without the empty names and the single dots. *)
Fixpoint leading_slashes (s : string) : nat :=
  match s with
  | String c s' => if Ascii.eqb c "/"%char then S (leading_slashes s') else O
  | EmptyString => O
  end.

Definition path_root (s : string) : string :=
  match leading_slashes s with
  | O => ""
  | 2%nat => "//"
  | _ => "/"
  end.

Definition kept_name (name : string) : list string :=
  if String.eqb name "" || String.eqb name "." then [] else [name].

(** The names of [s], [name] being the one that is read. *)
Fixpoint path_names (name s : string) : list string :=
  match s with
  | EmptyString => kept_name name
  | String c s' =>
      if Ascii.eqb c "/"%char then (kept_name name ++ path_names "" s')%list
      else path_names (name ++ String c "") s'
  end.

(** [str(p)] for the path of that root and those names. *)
Definition path_str (root : string) (names : list string) : string :=
  match names with
  | [] => if String.eqb root "" then "." else root
  | _ :: _ => root ++ String.concat "/" names
  end.

(** [a / b] for a path [a] and a string [b]: the names of [b] follow those
    of [a], unless [b] is absolute, which then replaces [a]. *)
Definition truediv (a b : string) : string :=
  if String.eqb (path_root b) "" then
    path_str (path_root a) (path_names "" a ++ path_names "" b)%list
  else path_str (path_root b) (path_names "" b).

Definition nl : string := String (ascii_of_nat 10) EmptyString.

(** ** The sampler *)

Section Sampler.

(** The R interpreter with the lhs package.  [run_R i seed npoints ndim] is
    the [i]-th run of the script
    [library('lhs'); set.seed(seed); write.table(maximinLHS(npoints, ndim))]:
    its exit status and the numbers on the lines of its standard output.
    That R is not installed, or prints what is not a number, is left out. *)
Variable run_R : nat -> Z -> Z -> Z -> Z * list (list Q).

(** [subprocess.run(['R', '--slave'], ..., check=True)] raises when the exit
    status is not zero; the output is then parsed into an array. *)
Definition generate_lhs (npoints ndim seed : Z) : M Np.ndarray :=
  fun w =>
    let proc := run_R (List.length (R_runs w)) seed npoints ndim in
    let w' := log_R_run seed npoints ndim w in
    if Z.eqb (fst proc) 0 then (w', Np.array (snd proc))
    else (w', Raise (CalledProcessError (fst proc) ["R"; "--slave"])).

End Sampler.

(** ** The design *)

Module Design.

(** The public attributes of a [Design].  [labels] is a local of the
    constructor and is not kept. *)
Record t := {
  system : string;
  projectiles : string;
  target : string;
  beam_energy : Z;
  type : string;
  keys : list string;
  range : list (Q * Q);
  ndim : nat;
  min : list Q;
  max : list Q;
  points : list string;
  array : Np.ndarray
}.

(** The norm range by beam energy; the entry for 5020 is commented out in
    the source. *)
Definition norm_range_table : list (Z * (Q * Q)) :=
  [ (2760%Z, (10, 18)%Q) ].

(** [0.0002**.25] and [(0.2*0.3)**.25]: the doubles these evaluate to, in
    their shortest decimal form. *)
Definition area_fourth_min : Q := 0.11892071150027211.
Definition area_fourth_max : Q := 0.4949232003839765.

(** The parameters that are sampled: key, label, range.  The entries that
    the source comments out are left out. *)
Definition parameters (norm_range : Q * Q) : list (string * string * (Q * Q)) :=
  [ ("norm",                      "{Norm}",                   norm_range);
    ("fluct_k",                   "k {fluct}",                (0.3, 3.0)%Q);
    ("nucleon_width",             "w [{fm}]",                 (0.4, 1.5)%Q);
    ("tau_R",                     "\tau {R} [{fm}/c]",        (0.5, 2.0)%Q);
    ("alpha",                     "\alpha",                   (-0.5, 0.0)%Q);
    ("eta_over_s_at_kink",        "\eta/s {kink}",            (0.01, 0.25)%Q);
    ("zeta_over_s_max",           "\zeta/s {max}",            (0.0, 0.3)%Q);
    ("zeta_over_s_T_peak_in_GeV", "\eta/s {Tpeak}",           (0.1, 0.5)%Q);
    ("zeta_over_s_area_fourth",   "\zeta/s {area} [{GeV^2}]",
                                  (area_fourth_min, area_fourth_max));
    ("zeta_over_s_lambda_asymm",  "\eta/s {\lambda}",         (-0.8, 0.8)%Q) ].

(** The seed used when the caller gives none. *)
Definition default_seed (validation : bool) : Z :=
  if validation then 751783496%Z else 450829120%Z.

(** The cross section by beam energy, [sqrt(s) [GeV] : sigma_NN [fm^2]]. *)
Definition cross_section_table : list (Z * Q) :=
  [ (200%Z, 4.2%Q); (2760%Z, 6.4%Q); (5020%Z, 7.0%Q) ].

Section Methods.

Variable run_R : nat -> Z -> Z -> Z -> Z * list (list Q).

(** [str(x)] for a float. *)
Variable str_float : Np.float64 -> string.

(** [Design(system, npoints, validation, seed)] *)
Definition __init__ (system : string * string * Z) (npoints : Z)
    (validation : bool) (seed : option Z) : M t :=
  let '(s0, s1, s2) := system in
  let self_system := s0 ++ s1 ++ "-" ++ str_int s2 in
  let self_type := if validation then "validation" else "main" in
  print "self.system = " ;;
  print self_system ;;
  norm_range <- lift (subscript norm_range_table s2) ;;
  let table := parameters norm_range in
  let self_keys := map (fun p => fst (fst p)) table in
  let self_range := map snd table in
  let self_ndim := List.length self_range in
  let self_min := map fst self_range in
  let self_max := map snd self_range in
  let self_points := map str_int (Py.range npoints) in
  let lhsmin := self_min in
  let seed := match seed with
              | None => default_seed validation
              | Some s => s
              end in
  width <- lift (Np.zip_with Qminus self_max lhsmin) ;;
  lhs <- generate_lhs run_R npoints (Z.of_nat self_ndim) seed ;;
  scaled <- lift (Np.vec_op Qmult width lhs) ;;
  self_array <- lift (Np.vec_op Qplus lhsmin scaled) ;;
  ret {| system := self_system; projectiles := s0; target := s1;
         beam_energy := s2; type := self_type; keys := self_keys;
         range := self_range; ndim := self_ndim; min := self_min;
         max := self_max; points := self_points; array := self_array |}.

Definition str (v : value) : string :=
  match v with
  | VFloat x => str_float x
  | VStr s => s
  end.

(** A dict entry used as a number. *)
Definition as_float (v : value) : result Np.float64 :=
  match v with
  | VFloat x => Ok x
  | VStr _ => Raise TypeError
  end.

(** Iterating over the array: the rows of a matrix, the scalars of a
    rank-one array (which [zip] then refuses). *)
Definition iter_array (a : Np.ndarray) : list (option (list Q)) :=
  match a with
  | Np.Arr1 v => map (fun _ => None) v
  | Np.Arr2 rows => map Some rows
  end.

(** The parameter dict of one design point, as it stands when the row of
    the table is written. *)
Definition point_kwargs (self : t) (row : option (list Q)) : result (dict value) :=
  let! row := match row with
              | Some r => Ok r
              | None => Raise TypeError
              end in
  let! cross_section := subscript cross_section_table (beam_energy self) in
  let kwargs :=
    update (update [] (combine (keys self)
                         (map (fun q => VFloat (Np.Finite q)) row)))
           [ ("projectiles", VStr (projectiles self));
             ("cross_section", VFloat (Np.Finite cross_section)) ] in
  let! (area_fourth, kwargs) := pop kwargs "zeta_over_s_area_fourth" in
  let! a := as_float area_fourth in
  let numerator := Np.mul (Np.Finite (2 / 3.141592)) (Np.pow a 4) in
  let! zmax := getitem kwargs "zeta_over_s_max" in
  let! z := as_float zmax in
  Ok (update kwargs
        [ ("zeta_over_s_width_in_GeV", VFloat (Np.div numerator z)) ]).

(** The arguments of [write_module_inputs] for one design point. *)
Definition module_call (self : t) (outdir point : string) (kwargs : dict value)
  : result ModuleInputs.call :=
  let! a1 := getitem kwargs "cross_section" in
  let! a2 := getitem kwargs "norm" in
  let! a3 := getitem kwargs "fluct_k" in
  let! a4 := getitem kwargs "nucleon_width" in
  let! a5 := getitem kwargs "tau_R" in
  let! a6 := getitem kwargs "alpha" in
  let! a7 := getitem kwargs "eta_over_s_at_kink" in
  let! a8 := getitem kwargs "zeta_over_s_max" in
  let! a9 := getitem kwargs "zeta_over_s_width_in_GeV" in
  let! a10 := getitem kwargs "zeta_over_s_T_peak_in_GeV" in
  let! a11 := getitem kwargs "zeta_over_s_lambda_asymm" in
  Ok {| ModuleInputs.outdir := outdir;
        ModuleInputs.design_point_id := point;
        ModuleInputs.projectile := projectiles self;
        ModuleInputs.target := projectiles self;
        ModuleInputs.sqrts := beam_energy self;
        ModuleInputs.inel_nucleon_cross_section := a1;
        ModuleInputs.trento_normalization := a2;
        ModuleInputs.trento_fluctuation_k := a3;
        ModuleInputs.trento_nucleon_width := a4;
        ModuleInputs.tau_R := a5;
        ModuleInputs.alpha := a6;
        ModuleInputs.eta_over_s_at_kink := a7;
        ModuleInputs.zeta_over_s_max := a8;
        ModuleInputs.zeta_over_s_width_in_GeV := a9;
        ModuleInputs.zeta_over_s_T_peak_in_GeV := a10;
        ModuleInputs.zeta_over_s_lambda_asymm := a11 |}.

(** One pass of the loop over the design points. *)
Definition write_point (self : t) (outdir design_file : string)
    (point : string) (row : option (list Q)) : M unit :=
  kwargs <- lift (point_kwargs self row) ;;
  call <- lift (module_call self outdir point kwargs) ;;
  write_module_inputs call ;;
  write design_file point ;;
  for_each (Py.keys kwargs) (fun key =>
    v <- lift (getitem kwargs key) ;;
    write design_file ("," ++ str v)) ;;
  write design_file nl.

(** [self.write_files(basedir)], for the path [basedir] as its string. *)
Definition write_files (self : t) (basedir : string) : M unit :=
  let outdir := truediv (truediv basedir (type self)) (system self) in
  mkdir outdir ;;
  design_file <- open_w (join basedir
    ("design_points_" ++ type self ++ "_" ++ system self ++ ".dat")) ;;
  write design_file "idx" ;;
  for_each (keys self) (fun key => write design_file ("," ++ key)) ;;
  write design_file nl ;;
  for_each (combine (points self) (iter_array (array self)))
    (fun pr => write_point self outdir design_file (fst pr) (snd pr)) ;;
  close design_file ;;
  range_file <- open_w (join basedir
    ("design_ranges_" ++ type self ++ "_" ++ system self ++ ".dat")) ;;
  write range_file ("param,min,max" ++ nl) ;;
  for_each (Py.range (Z.of_nat (List.length (keys self)))) (fun i =>
    k <- lift (index (keys self) i) ;;
    r <- lift (index (range self) i) ;;
    write range_file (k ++ "," ++ str_float (Np.Finite (fst r)) ++ ","
                        ++ str_float (Np.Finite (snd r)) ++ nl)) ;;
  close range_file.

End Methods.

(** [self.__array__()]: a design used as an array is its design array. *)
Definition __array__ (self : t) : Np.ndarray := array self.

End Design.

(** The body of the loop of [main]: build a design, write its files.
    [n_design_pts] and [systems] come from the module [configurations],
    which is not in the source: they are parameters. *)
Definition main_step (run_R : nat -> Z -> Z -> Z -> Z * list (list Q))
    (str_float : Np.float64 -> string) (n_design_pts : Z)
    (inputs_dir : string) (system : string * string * Z) (validation : bool)
  : M unit :=
  d <- Design.__init__ run_R system n_design_pts validation None ;;
  Design.write_files str_float d inputs_dir.

(** [main], over the [systems] of the configuration. *)
Definition main (run_R : nat -> Z -> Z -> Z -> Z * list (list Q))
    (str_float : Np.float64 -> string) (n_design_pts : Z)
    (systems : list (string * string * Z)) (inputs_dir : string) : M unit :=
  for_each (list_prod systems [false; true]) (fun sv =>
    main_step run_R str_float n_design_pts inputs_dir (fst sv) (snd sv)).

(** ** What a run leaves behind

    The views through which the properties below read a design, the files
    written for it and the calls made for it. *)

(** The strings of a list, one after the other. *)
Definition cat (l : list string) : string := fold_right append "" l.

(** The keys and the ranges of the only recognised beam energy. *)
Definition sampled_keys : list string :=
  map (fun p : string * string * (Q * Q) => fst (fst p))
      (Design.parameters (10, 18)%Q).

Definition sampled_ranges : list (Q * Q) :=
  map snd (Design.parameters (10, 18)%Q).

(** A sample row as broadcasting reads it against [ndim] columns. *)
Definition spread (ndim : nat) (r : list Q) : list Q :=
  match r with
  | [u] => repeat u ndim
  | _ => r
  end.

(** The affine map of a sample row into the ranges. *)
Definition scale_row (rng : list (Q * Q)) (r : list Q) : list Q :=
  map (fun p => (fst (fst p) + (snd (fst p) - fst (fst p)) * snd p)%Q)
      (combine rng r).

(** The seed that reaches the sampler. *)
Definition seed_used (validation : bool) (seed : option Z) : Z :=
  match seed with
  | None => Design.default_seed validation
  | Some s => s
  end.

(** The world after the two [print]s of the constructor. *)
Definition printed (s0 s1 : string) (e : Z) (w : world) : world :=
  fst ((print "self.system = " ;; print (s0 ++ s1 ++ "-" ++ str_int e)) w).

(** What the constructor establishes: [d] is the design of the system
    [(s0, s1, e)] over the sample table [m] that R printed. *)
Record Built (s0 s1 : string) (e npoints : Z) (validation : bool)
    (m : list (list Q)) (d : Design.t) : Prop := {
  built_system : Design.system d = s0 ++ s1 ++ "-" ++ str_int e;
  built_projectiles : Design.projectiles d = s0;
  built_target : Design.target d = s1;
  built_energy : Design.beam_energy d = 2760%Z /\ e = 2760%Z;
  built_type : Design.type d = if validation then "validation" else "main";
  built_keys : Design.keys d = sampled_keys;
  built_range : Design.range d = sampled_ranges;
  built_ndim : Design.ndim d = 10%nat;
  built_min : Design.min d = map fst (Design.range d);
  built_max : Design.max d = map snd (Design.range d);
  built_points : Design.points d = map str_int (Py.range npoints);
  built_array :
    Design.array d
    = Np.Arr2 (map (fun r => scale_row (Design.range d) (spread 10 r)) m);
  built_sample :
    m <> [] /\ Forall (fun r => List.length r = 10%nat \/ List.length r = 1%nat) m
}.

Arguments built_system {s0 s1 e npoints validation m d} _.
Arguments built_projectiles {s0 s1 e npoints validation m d} _.
Arguments built_target {s0 s1 e npoints validation m d} _.
Arguments built_energy {s0 s1 e npoints validation m d} _.
Arguments built_type {s0 s1 e npoints validation m d} _.
Arguments built_keys {s0 s1 e npoints validation m d} _.
Arguments built_range {s0 s1 e npoints validation m d} _.
Arguments built_ndim {s0 s1 e npoints validation m d} _.
Arguments built_min {s0 s1 e npoints validation m d} _.
Arguments built_max {s0 s1 e npoints validation m d} _.
Arguments built_points {s0 s1 e npoints validation m d} _.
Arguments built_array {s0 s1 e npoints validation m d} _.
Arguments built_sample {s0 s1 e npoints validation m d} _.

(** [2./3.141592*area_fourth**4/zmax] on two sampled values. *)
Definition derived_width (area_fourth zmax : Q) : Np.float64 :=
  Np.div (Np.mul (Np.Finite (2 / 3.141592)) (Np.pow (Np.Finite area_fourth) 4))
         (Np.Finite zmax).

(** The parameter dict of a row of ten values, entry by entry. *)
Definition kwargs_view (projectiles : string) (row : list Q) : dict value :=
  match row with
  | [a0; a1; a2; a3; a4; a5; a6; a7; a8; a9] =>
      [ ("norm", VFloat (Np.Finite a0));
        ("fluct_k", VFloat (Np.Finite a1));
        ("nucleon_width", VFloat (Np.Finite a2));
        ("tau_R", VFloat (Np.Finite a3));
        ("alpha", VFloat (Np.Finite a4));
        ("eta_over_s_at_kink", VFloat (Np.Finite a5));
        ("zeta_over_s_max", VFloat (Np.Finite a6));
        ("zeta_over_s_T_peak_in_GeV", VFloat (Np.Finite a7));
        ("zeta_over_s_lambda_asymm", VFloat (Np.Finite a9));
        ("projectiles", VStr projectiles);
        ("cross_section", VFloat (Np.Finite 6.4));
        ("zeta_over_s_width_in_GeV", VFloat (derived_width a8 a6)) ]
  | _ => []
  end.

Definition get_or_empty (kw : dict value) (k : string) : value :=
  match getitem kw k with
  | Ok v => v
  | Raise _ => VStr ""
  end.

(** The line of the design-point table for one point. *)
Definition point_line (str_float : Np.float64 -> string) (self : Design.t)
    (pr : string * option (list Q)) : string :=
  match Design.point_kwargs self (snd pr) with
  | Ok kw =>
      fst pr
      ++ cat (map (fun k => "," ++ Design.str str_float (get_or_empty kw k))
                  (Py.keys kw))
      ++ nl
  | Raise _ => ""
  end.

(** The fields of that line, from the sample row of the point. *)
Definition point_fields (str_float : Np.float64 -> string) (projectiles : string)
    (ps : string * list Q) : list string :=
  fst ps
  :: map (fun kv => Design.str str_float (snd kv))
       (kwargs_view projectiles (scale_row sampled_ranges (spread 10 (snd ps)))).

(** The call of [write_module_inputs] for one point. *)
Definition point_calls (self : Design.t) (outdir : string)
    (pr : string * option (list Q)) : list ModuleInputs.call :=
  match Design.point_kwargs self (snd pr) with
  | Ok kw =>
      match Design.module_call self outdir (fst pr) kw with
      | Ok c => [c]
      | Raise _ => []
      end
  | Raise _ => []
  end.

(** The line of the range table for one parameter, and its fields. *)
Definition range_line (str_float : Np.float64 -> string)
    (kr : string * (Q * Q)) : string :=
  fst kr ++ "," ++ str_float (Np.Finite (fst (snd kr))) ++ ","
         ++ str_float (Np.Finite (snd (snd kr))) ++ nl.

Definition range_rows (str_float : Np.float64 -> string)
    (krs : list (string * (Q * Q))) : list (list string) :=
  map (fun kr => [ fst kr; str_float (Np.Finite (fst (snd kr)));
                   str_float (Np.Finite (snd (snd kr))) ]) krs.

(** Where [write_files] puts things. *)
Definition outdir_of (self : Design.t) (basedir : string) : string :=
  truediv (truediv basedir (Design.type self)) (Design.system self).

Definition design_points_path (self : Design.t) (basedir : string) : string :=
  join basedir ("design_points_" ++ Design.type self ++ "_"
                ++ Design.system self ++ ".dat").

Definition design_ranges_path (self : Design.t) (basedir : string) : string :=
  join basedir ("design_ranges_" ++ Design.type self ++ "_"
                ++ Design.system self ++ ".dat").

Definition mkdir_dirs (ds : list string) (p : string) : list string :=
  if existsb (String.eqb p) ds then ds else (ds ++ [p])%list.

(** What the two files hold once [write_files] has returned. *)
Definition design_points_text (str_float : Np.float64 -> string)
    (d : Design.t) : string :=
  "idx" ++ cat (map (fun k => "," ++ k) (Design.keys d)) ++ nl
  ++ cat (map (point_line str_float d)
            (combine (Design.points d) (Design.iter_array (Design.array d)))).

Definition design_ranges_text (str_float : Np.float64 -> string)
    (d : Design.t) : string :=
  "param,min,max" ++ nl
  ++ cat (map (range_line str_float) (combine (Design.keys d) (Design.range d))).

(** ** Reading the tables back

    Modelled from the spec: the reader of the two tables, which the source
    does not have.  The format is the one the spec gives for them: a header
    line, then one line per row, the fields separated by commas; numbers go
    through a parser of floats. *)

Definition comma : ascii := ","%char.
Definition newline : ascii := ascii_of_nat 10.

(** [s.split(sep)] for a one-character separator. *)
Fixpoint split (sep : ascii) (s : string) : list string :=
  match s with
  | EmptyString => [""]
  | String c s' =>
      if Ascii.eqb c sep then "" :: split sep s'
      else match split sep s' with
           | x :: xs => String c x :: xs
           | [] => [String c ""]
           end
  end.

(** The lines of a text, each ended by a newline. *)
Definition lines (text : string) : list string :=
  match rev (split newline text) with
  | "" :: l => rev l
  | _ => split newline text
  end.

Definition read_table (text : string) : list (list string) :=
  map (split comma) (lines text).

(** A line of a delimited table. *)
Definition csv_line (fields : list string) : string :=
  String.concat "," fields ++ nl.

(** [sep] does not occur in [s]. *)
Fixpoint free (sep : ascii) (s : string) : bool :=
  match s with
  | EmptyString => true
  | String c s' => negb (Ascii.eqb c sep) && free sep s'
  end.

(** A field that holds no separator. *)
Definition clean (s : string) : bool := free comma s && free newline s.

Fixpoint read_range_rows (parse_float : string -> option Q)
    (rows : list (list string)) : option (list (string * (Q * Q))) :=
  match rows with
  | [] => Some []
  | [k; lo; hi] :: rows' =>
      match parse_float lo, parse_float hi, read_range_rows parse_float rows' with
      | Some a, Some b, Some rest => Some ((k, (a, b)) :: rest)
      | _, _, _ => None
      end
  | _ :: _ => None
  end.

(** The range table read back: the header, then key, min and max. *)
Definition read_ranges (parse_float : string -> option Q) (text : string)
  : option (list (string * (Q * Q))) :=
  match read_table text with
  | ["param"; "min"; "max"] :: rows => read_range_rows parse_float rows
  | _ => None
  end.

(** ** Sample environments

    A printer of floats with its parser, an empty world and some behaviours
    of R, for the examples. *)

(** A float as numerator, slash, denominator. *)
Definition show (x : Np.float64) : string :=
  match x with
  | Np.Finite q => str_int (Qnum q) ++ "/" ++ str_int (Zpos (Qden q))
  | Np.Inf false => "inf"
  | Np.Inf true => "-inf"
  | Np.NaN => "nan"
  end.

Definition parse_show (s : string) : option Q :=
  match split "/"%char s with
  | [n; d] =>
      match NilZero.int_of_string n, NilZero.int_of_string d with
      | Some a, Some b =>
          match Z.of_int b with
          | Zpos p => Some (Z.of_int a # p)
          | _ => None
          end
      | _, _ => None
      end
  | _ => None
  end.

Definition empty_world : world :=
  {| stdout := []; dirs := []; files := []; R_runs := []; module_inputs := [] |}.

(** R prints [npoints] rows of [ndim] times the number [u]. *)
Definition R_constant (u : Q) : nat -> Z -> Z -> Z -> Z * list (list Q) :=
  fun _ _ npoints ndim =>
    (0%Z, map (fun _ => repeat u (Z.to_nat ndim)) (Py.range npoints)).

(** R prints nothing and exits with the given status. *)
Definition R_exits (status : Z) : nat -> Z -> Z -> Z -> Z * list (list Q) :=
  fun _ _ _ _ => (status, []).

Definition midpoint (lo hi : Q) : Q := lo + (hi - lo) * (1 # 2).

(** ** More views *)

(** The sample tables the constructor accepts: some rows, all of ten
    columns or all of one. *)
Definition all_of_length (n : nat) (m : list (list Q)) : bool :=
  forallb (fun r => Nat.eqb (List.length r) n) m.

Definition accepted (m : list (list Q)) : bool :=
  match m with
  | [] => false
  | _ :: _ => all_of_length 10 m || all_of_length 1 m
  end.

(** The script that [generate_lhs] feeds to R, with the three numbers in
    the order of [format(seed, npoints, ndim)]. *)
Definition lhs_script (seed npoints ndim : Z) : string :=
  nl ++ "        library('lhs')" ++ nl
  ++ "        set.seed(" ++ str_int seed ++ ")" ++ nl
  ++ "        write.table(maximinLHS(" ++ str_int npoints ++ ", "
  ++ str_int ndim ++ "), col.names=FALSE, row.names=FALSE)" ++ nl
  ++ "        ".

(** R answers every run for [n] points in ten dimensions with status zero
    and a table that the constructor accepts. *)
Definition R_answers (run_R : nat -> Z -> Z -> Z -> Z * list (list Q)) (n : Z)
  : Prop :=
  forall i seed,
    fst (run_R i seed n 10%Z) = 0%Z /\ accepted (snd (run_R i seed n 10%Z)) = true.

(** The runs of R of a campaign over some systems: the main design, then
    the validation design, system after system. *)
Definition campaign_runs (n : Z) (systems : list (string * string * Z))
  : list (Z * Z * Z) :=
  flat_map (fun _ => [ (Design.default_seed false, n, 10%Z);
                       (Design.default_seed true, n, 10%Z) ]) systems.

(** The path of a table of a system: [kind] is [points] or [ranges]. *)
Definition table_path (inputs_dir kind : string) (validation : bool)
    (system : string * string * Z) : string :=
  join inputs_dir
    ("design_" ++ kind ++ "_" ++ (if validation then "validation" else "main")
     ++ "_" ++ (fst (fst system) ++ snd (fst system) ++ "-" ++ str_int (snd system))
     ++ ".dat").

(** R prints the table [m], whatever it is asked for. *)
Definition R_prints (m : list (list Q)) : nat -> Z -> Z -> Z -> Z * list (list Q) :=
  fun _ _ _ _ => (0%Z, m).

(** R fails, with status 1 and no output, when a count is not positive, and
    prints the constant table otherwise. *)
Definition R_refuses (u : Q) : nat -> Z -> Z -> Z -> Z * list (list Q) :=
  fun i seed npoints ndim =>
    if (0 <? npoints)%Z && (0 <? ndim)%Z then R_constant u i seed npoints ndim
    else (1%Z, []).

(** The design [d] with another value in its [target] attribute. *)
Definition with_target (d : Design.t) (target : string) : Design.t :=
  {| Design.system := Design.system d;
     Design.projectiles := Design.projectiles d;
     Design.target := target;
     Design.beam_energy := Design.beam_energy d;
     Design.type := Design.type d;
     Design.keys := Design.keys d;
     Design.range := Design.range d;
     Design.ndim := Design.ndim d;
     Design.min := Design.min d;
     Design.max := Design.max d;
     Design.points := Design.points d;
     Design.array := Design.array d |}.

(** * Properties *)

(** ** The primitives on small inputs *)

Example str_int_digits :
  (str_int 2760, str_int 0, str_int (-5)) = ("2760", "0", "-5").
Proof. reflexivity. Qed.

Example range_of_counts :
  Py.range 3 = [0; 1; 2]%Z /\ Py.range 0 = [] /\ Py.range (-2) = [].
Proof. repeat split. Qed.

Example subscript_of_cross_sections :
  subscript Design.cross_section_table 5020 = Ok 7.0%Q
  /\ subscript Design.cross_section_table 7000 = Raise (KeyError (KInt 7000)).
Proof. split; reflexivity. Qed.

(** A key that is set again keeps its place; one that is popped and set
    again goes last. *)
Example dict_keeps_insertion_order :
  let d := update [] [("a", 1%Z); ("b", 2%Z); ("c", 3%Z)] in
  setitem d "a" 7%Z = [("a", 7%Z); ("b", 2%Z); ("c", 3%Z)]
  /\ pop d "b" = Ok (2%Z, [("a", 1%Z); ("c", 3%Z)])
  /\ pop d "z" = Raise (KeyError (KStr "z"))
  /\ Py.keys (setitem [("a", 1%Z); ("c", 3%Z)] "b" 2%Z) = ["a"; "c"; "b"].
Proof. repeat split. Qed.

Example array_of_rows :
  Np.array [] = Ok (Np.Arr1 [])
  /\ Np.array [[1; 2]; [3; 4]]%Q = Ok (Np.Arr2 [[1; 2]; [3; 4]]%Q)
  /\ Np.array [[1]; [2; 3]]%Q = Raise ValueError.
Proof. repeat split. Qed.

Example broadcast_of_shapes :
  Np.vec_op Qplus [1; 2; 3]%Q (Np.Arr2 [[10; 20; 30]]%Q)
  = Ok (Np.Arr2 [[11; 22; 33]]%Q)
  /\ Np.vec_op Qplus [1; 2; 3]%Q (Np.Arr2 [[10]; [20]]%Q)
     = Ok (Np.Arr2 [[11; 12; 13]; [21; 22; 23]]%Q)
  /\ Np.vec_op Qplus [1; 2; 3]%Q (Np.Arr2 [[10; 20]]%Q) = Raise ValueError
  /\ Np.vec_op Qplus [1; 2; 3]%Q (Np.Arr1 []) = Raise ValueError.
Proof. repeat split. Qed.

Example division_by_zero :
  Np.div (Np.Finite 1) (Np.Finite 0) = Np.Inf false
  /\ Np.div (Np.Finite (-1)) (Np.Finite 0) = Np.Inf true
  /\ Np.div (Np.Finite 0) (Np.Finite 0) = Np.NaN
  /\ Np.div (Np.Finite 1) (Np.Finite 4) = Np.Finite (1 / 4).
Proof. repeat split. Qed.

Example truediv_of_paths :
  truediv (truediv "inputs" "main") "PbPb-2760" = "inputs/main/PbPb-2760"
  /\ truediv (truediv "." "main") "PbPb-2760" = "main/PbPb-2760"
  /\ truediv (truediv "inputs" "main") "/tmp/xPb-2760" = "/tmp/xPb-2760"
  /\ truediv (truediv "/" "main") "a//b/./c-2760" = "/main/a/b/c-2760"
  /\ truediv "//srv" "" = "//srv"
  /\ truediv "" "" = ".".
Proof. repeat split. Qed.

Example join_of_paths :
  join "inputs" "main" = "inputs/main"
  /\ join "inputs/" "main" = "inputs/main"
  /\ join "" "main" = "main".
Proof. repeat split. Qed.

Example table_read_back :
  read_table (csv_line ["param"; "min"; "max"] ++ csv_line ["norm"; "10"; "18"])
  = [["param"; "min"; "max"]; ["norm"; "10"; "18"]]
  /\ split comma "a,,b" = ["a"; ""; "b"]
  /\ parse_show (show (Np.Finite 0.25)) = Some 0.25%Q.
Proof. repeat split. Qed.

(** ** Strings and dicts *)

Lemma append_nil_r (s : string) : s ++ "" = s.
Proof. induction s as [|c s IH]; simpl; [reflexivity | now rewrite IH]. Qed.

Lemma append_assoc (a b c : string) : (a ++ b) ++ c = a ++ (b ++ c).
Proof. induction a as [|x a IH]; simpl; [reflexivity | now rewrite IH]. Qed.

Lemma append_inj_l (a x y : string) : a ++ x = a ++ y -> x = y.
Proof.
  induction a as [|c a IH]; simpl; intros H; [exact H|].
  injection H as H. auto.
Qed.

Lemma cat_app (l1 l2 : list string) : cat (l1 ++ l2) = cat l1 ++ cat l2.
Proof.
  induction l1 as [|x l1 IH]; simpl; [reflexivity|].
  now rewrite IH, append_assoc.
Qed.

Section DictFacts.
Context {V : Type}.
Implicit Types (d : dict V) (k : string) (v : V).

Lemma getitem_setitem d k v : getitem (setitem d k v) k = Ok v.
Proof.
  induction d as [|[k' v'] d IH]; simpl.
  - now rewrite String.eqb_refl.
  - destruct (String.eqb k' k) eqn:E; simpl; rewrite E; [reflexivity | exact IH].
Qed.

Lemma setitem_setitem d k v v' : setitem (setitem d k v) k v' = setitem d k v'.
Proof.
  induction d as [|[k' w] d IH]; simpl.
  - now rewrite String.eqb_refl.
  - destruct (String.eqb k' k) eqn:E; simpl; rewrite E; [reflexivity | now rewrite IH].
Qed.

Lemma getitem_setitem_other d k k' v :
  k <> k' -> getitem (setitem d k v) k' = getitem d k'.
Proof.
  intros Hne. induction d as [|[k0 v0] d IH]; simpl.
  - destruct (String.eqb_spec k k'); [contradiction | reflexivity].
  - destruct (String.eqb_spec k0 k) as [->|Hk]; simpl.
    + destruct (String.eqb_spec k k'); [contradiction | reflexivity].
    + destruct (String.eqb k0 k'); [reflexivity | exact IH].
Qed.

End DictFacts.

Lemma getitem_in_keys (kw : dict value) k :
  In k (Py.keys kw) -> getitem kw k = Ok (get_or_empty kw k).
Proof.
  unfold get_or_empty.
  induction kw as [|[k' v] kw IH]; simpl; [contradiction|].
  destruct (String.eqb_spec k' k) as [->|Hne]; [reflexivity|].
  intros [H|H]; [contradiction|]. specialize (IH H).
  destruct (getitem kw k); [reflexivity | discriminate].
Qed.

(** ** Delimited tables *)

Lemma split_free sep s : free sep s = true -> split sep s = [s].
Proof.
  induction s as [|c s IH]; simpl; [reflexivity|].
  destruct (Ascii.eqb c sep); simpl; [discriminate|].
  intros H. now rewrite IH.
Qed.

Lemma split_app sep a b :
  free sep a = true -> split sep (a ++ String sep b) = a :: split sep b.
Proof.
  induction a as [|c a IH]; simpl.
  - now rewrite Ascii.eqb_refl.
  - destruct (Ascii.eqb c sep); simpl; [discriminate|].
    intros H. now rewrite IH.
Qed.

Lemma split_lines ls :
  Forall (fun l => free newline l = true) ls ->
  split newline (cat (map (fun l => l ++ nl) ls)) = (ls ++ [""])%list.
Proof.
  induction 1 as [|l ls Hl _ IH]; simpl; [reflexivity|].
  rewrite append_assoc. change (nl ++ ?x) with (String newline x).
  now rewrite split_app, IH.
Qed.

Lemma lines_cat ls :
  Forall (fun l => free newline l = true) ls ->
  lines (cat (map (fun l => l ++ nl) ls)) = ls.
Proof.
  intros H. unfold lines. rewrite (split_lines ls H), rev_app_distr. simpl.
  apply rev_involutive.
Qed.

Lemma free_append sep a b :
  free sep (a ++ b) = free sep a && free sep b.
Proof.
  induction a as [|c a IH]; simpl; [reflexivity|].
  now rewrite IH, andb_assoc.
Qed.

Lemma split_concat fields :
  fields <> [] -> Forall (fun f => free comma f = true) fields ->
  split comma (String.concat "," fields) = fields.
Proof.
  intros Hne H. induction H as [|f fs Hf Hfs IH]; [congruence|].
  destruct fs as [|g fs]; simpl.
  - now apply split_free.
  - change ("," ++ ?x) with (String comma x).
    rewrite split_app by assumption. f_equal. apply IH. discriminate.
Qed.

Lemma free_concat fields :
  Forall (fun f => free newline f = true) fields ->
  free newline (String.concat "," fields) = true.
Proof.
  induction 1 as [|f fs Hf Hfs IH]; [reflexivity|].
  destruct fs as [|g fs]; simpl; [assumption|].
  rewrite free_append, Hf. simpl. exact IH.
Qed.

Lemma clean_free f : clean f = true -> free comma f = true /\ free newline f = true.
Proof. unfold clean. intros H. now apply andb_prop in H. Qed.

Lemma lines_csv (rows : list (list string)) :
  Forall (fun r => r <> [] /\ Forall (fun f => clean f = true) r) rows ->
  lines (cat (map csv_line rows)) = map (String.concat ",") rows.
Proof.
  intros H. unfold csv_line.
  rewrite <- (map_map (String.concat ",") (fun l => l ++ nl)).
  apply lines_cat. rewrite Forall_map. eapply Forall_impl; [|exact H].
  intros r [_ Hc]. apply free_concat.
  eapply Forall_impl; [|exact Hc]. intros f Hf. now apply clean_free in Hf.
Qed.

(** A table of clean fields is read back as it was written. *)
Lemma read_table_csv (rows : list (list string)) :
  Forall (fun r => r <> [] /\ Forall (fun f => clean f = true) r) rows ->
  read_table (cat (map csv_line rows)) = rows.
Proof.
  intros H. unfold read_table. rewrite lines_csv by assumption.
  rewrite map_map. rewrite <- (map_id rows) at 2. apply map_ext_in.
  intros r Hr. rewrite Forall_forall in H. destruct (H r Hr) as [Hne Hc].
  apply split_concat; [assumption|].
  eapply Forall_impl; [|exact Hc]. intros f Hf. now apply clean_free in Hf.
Qed.

Lemma csv_line_cons (p : string) (fields : list string) :
  p ++ cat (map (fun f => "," ++ f) fields) ++ nl = csv_line (p :: fields).
Proof.
  unfold csv_line. revert p. induction fields as [|f fs IH]; intros p.
  - reflexivity.
  - change (String.concat "," (p :: f :: fs))
      with (p ++ "," ++ String.concat "," (f :: fs)).
    rewrite (append_assoc p). apply f_equal.
    change (String ","%char ((f ++ cat (map (fun f => "," ++ f) fs)) ++ nl)
            = String ","%char (String.concat "," (f :: fs) ++ nl)).
    apply f_equal. rewrite append_assoc. apply IH.
Qed.

Lemma read_range_rows_ok str_float parse_float krs :
  (forall k lo hi, In (k, (lo, hi)) krs ->
     parse_float (str_float (Np.Finite lo)) = Some lo
     /\ parse_float (str_float (Np.Finite hi)) = Some hi) ->
  read_range_rows parse_float (range_rows str_float krs) = Some krs.
Proof.
  induction krs as [|[k [lo hi]] krs IH]; intros H; [reflexivity|].
  cbn [range_rows map read_range_rows fst snd].
  destruct (H k lo hi (or_introl eq_refl)) as [-> ->].
  unfold range_rows in IH. rewrite IH; [reflexivity|].
  intros k' lo' hi' Hin. apply (H k'). now right.
Qed.

(** ** Lists and arrays *)

Lemma length_10_inv {A} (l : list A) :
  List.length l = 10%nat ->
  exists a0 a1 a2 a3 a4 a5 a6 a7 a8 a9, l = [a0; a1; a2; a3; a4; a5; a6; a7; a8; a9].
Proof.
  intros H.
  do 10 (destruct l as [|? l]; [discriminate H|]).
  destruct l; [|discriminate H]. repeat eexists.
Qed.

Lemma combine_map_r {A B C} (g : B -> C) (l : list A) (m : list B) :
  combine l (map g m) = map (fun p => (fst p, g (snd p))) (combine l m).
Proof.
  revert l. induction m as [|b m IH]; intros [|a l]; cbn; try reflexivity.
  now rewrite IH.
Qed.

Lemma Forall2_combine_map {A B C D} (P : A * B -> D -> Prop) (g : B -> C)
    (l : list A) (m : list B) (cs : list D) :
  Forall2 P (combine l m) cs ->
  Forall2 (fun pr c => exists ps, pr = (fst ps, g (snd ps)) /\ P ps c)
          (combine l (map g m)) cs.
Proof.
  revert l cs. induction m as [|b m IH]; intros [|a l] cs H; cbn in *;
    try (inversion H; subst; constructor).
  - exists (a, b). auto.
  - now apply IH.
Qed.

Lemma map_rows_Forall2 f rows rs :
  Np.map_rows f rows = Ok rs -> Forall2 (fun r r' => f r = Ok r') rows rs.
Proof.
  revert rs. induction rows as [|r rows IH]; simpl; intros rs H.
  - injection H as <-. constructor.
  - destruct (f r) as [r'|] eqn:E; [|discriminate].
    destruct (Np.map_rows f rows) as [rs'|]; [|discriminate].
    injection H as <-. constructor; auto.
Qed.

Lemma array_inv m a :
  Np.array m = Ok a -> (m = [] /\ a = Np.Arr1 []) \/ (m <> [] /\ a = Np.Arr2 m).
Proof.
  unfold Np.array. destruct m as [|r rs].
  - intros H; injection H as <-. now left.
  - destruct forallb; intros H; [|discriminate].
    injection H as <-. right. split; [discriminate | reflexivity].
Qed.

Lemma array_raise m e : Np.array m = Raise e -> e = ValueError.
Proof.
  unfold Np.array. destruct m as [|r rs]; [discriminate|].
  destruct forallb; [discriminate|]. now intros H; injection H as <-.
Qed.

Lemma zip_with_raise f a b e : Np.zip_with f a b = Raise e -> e = ValueError.
Proof.
  unfold Np.zip_with. destruct Np.broadcast; [discriminate|].
  now intros H; injection H as <-.
Qed.

Lemma map_rows_raise f rows e :
  (forall r e', f r = Raise e' -> e' = ValueError) ->
  Np.map_rows f rows = Raise e -> e = ValueError.
Proof.
  intros Hf. induction rows as [|r rows IH]; simpl; [discriminate|].
  destruct (f r) eqn:E.
  - destruct (Np.map_rows f rows); [discriminate|].
    intros H; injection H as <-. now apply IH.
  - intros H; injection H as <-. eauto.
Qed.

Lemma vec_op_raise f v a e : Np.vec_op f v a = Raise e -> e = ValueError.
Proof.
  unfold Np.vec_op. destruct a as [w|rows].
  - destruct (Np.zip_with f v w) eqn:E; [discriminate|].
    intros H; injection H as <-. eapply zip_with_raise; eauto.
  - destruct (Np.map_rows (Np.zip_with f v) rows) eqn:E; [discriminate|].
    intros H; injection H as <-.
    eapply map_rows_raise; [|exact E]. intros; eapply zip_with_raise; eauto.
Qed.

Lemma scale_one (r r' r'' : list Q) :
  Np.zip_with Qmult (map (fun p => (snd p - fst p)%Q) sampled_ranges) r = Ok r' ->
  Np.zip_with Qplus (map fst sampled_ranges) r' = Ok r'' ->
  r'' = scale_row sampled_ranges (spread 10 r)
  /\ (List.length r = 10%nat \/ List.length r = 1%nat).
Proof.
  intros H1 H2.
  destruct r as [|u0 r]; [discriminate H1|].
  destruct r as [|u1 r].
  { injection H1 as <-; injection H2 as <-; split; [reflexivity | now right]. }
  do 8 (destruct r as [|? r]; [discriminate H1|]).
  destruct r as [|? r]; [|discriminate H1].
  injection H1 as <-; injection H2 as <-; split; [reflexivity | now left].
Qed.

Lemma scale_rows (m rs rs' : list (list Q)) :
  Np.map_rows (Np.zip_with Qmult (map (fun p => (snd p - fst p)%Q) sampled_ranges)) m = Ok rs ->
  Np.map_rows (Np.zip_with Qplus (map fst sampled_ranges)) rs = Ok rs' ->
  rs' = map (fun r => scale_row sampled_ranges (spread 10 r)) m
  /\ Forall (fun r => List.length r = 10%nat \/ List.length r = 1%nat) m.
Proof.
  intros H1 H2. apply map_rows_Forall2 in H1. apply map_rows_Forall2 in H2.
  revert rs' H2. induction H1 as [|r r' m rs Hr _ IH]; intros rs' H2.
  - inversion H2; subst. split; constructor.
  - inversion H2 as [|? r'' ? rs'' Hr' Hrest]; subst.
    destruct (scale_one _ _ _ Hr Hr') as [-> Hlen].
    destruct (IH _ Hrest) as [-> Hall].
    split; [reflexivity | now constructor].
Qed.

Lemma scale_row_length r :
  List.length r = 10%nat \/ List.length r = 1%nat ->
  List.length (scale_row sampled_ranges (spread 10 r)) = 10%nat.
Proof.
  intros [H|H].
  - destruct (length_10_inv r H) as (a0&a1&a2&a3&a4&a5&a6&a7&a8&a9&->). reflexivity.
  - destruct r as [|u [|? ?]]; try discriminate H. reflexivity.
Qed.

Lemma nth_error_scale_row rng r j lo hi u :
  nth_error rng j = Some (lo, hi) -> nth_error r j = Some u ->
  nth_error (scale_row rng r) j = Some (lo + (hi - lo) * u)%Q.
Proof.
  revert r j. induction rng as [|p rng IH]; intros r j Hr Hu.
  - destruct j; discriminate.
  - destruct r as [|x r]; [destruct j; discriminate|].
    destruct j as [|j]; cbn in *.
    + injection Hr as ->. injection Hu as ->. reflexivity.
    + now apply IH.
Qed.

Lemma Forall2_map_same {A B C} (R : B -> C -> Prop) (f : A -> B) (g : A -> C) l :
  (forall a, In a l -> R (f a) (g a)) -> Forall2 R (map f l) (map g l).
Proof.
  induction l as [|a l IH]; intros H; cbn; constructor.
  - apply H. now left.
  - apply IH. intros; apply H; now right.
Qed.

Lemma Forall2_map_r {A B} (R : A -> B -> Prop) (g : A -> B) l :
  (forall a, In a l -> R a (g a)) -> Forall2 R l (map g l).
Proof.
  intros H. rewrite <- (map_id l) at 1. now apply Forall2_map_same.
Qed.

Lemma Forall2_map_eq {A B C} (f : B -> C) (g : A -> C) l l' :
  Forall2 (fun a b => f b = g a) l l' -> map f l' = map g l.
Proof. induction 1; cbn; congruence. Qed.

Lemma map_fst_combine {A B} (l : list A) (l' : list B) :
  map fst (combine l l') = firstn (List.length l') l.
Proof.
  revert l'. induction l as [|a l IH]; intros [|b l']; cbn; try reflexivity.
  now rewrite IH.
Qed.

Lemma length_combine_range {A} npoints (m : list A) :
  List.length (combine (map str_int (Py.range npoints)) m)
  = Nat.min (Z.to_nat npoints) (List.length m).
Proof.
  rewrite length_combine. unfold Py.range. now rewrite !length_map, length_seq.
Qed.

(** Rows of one length make an array; rows of two lengths do not. *)
Lemma array_even m :
  (forall r r', In r m -> In r' m -> List.length r = List.length r') ->
  Np.array m = Ok (match m with [] => Np.Arr1 [] | _ :: _ => Np.Arr2 m end).
Proof.
  intros H. destruct m as [|r rs]; [reflexivity|]. unfold Np.array.
  replace (forallb _ rs) with true; [reflexivity|].
  symmetry. apply forallb_forall. intros r' Hr'. apply Nat.eqb_eq.
  apply H; [now right | now left].
Qed.

Lemma array_ragged m r r' :
  In r m -> In r' m -> List.length r <> List.length r' ->
  Np.array m = Raise ValueError.
Proof.
  intros Hr Hr' Hne. destruct m as [|r0 rs]; [contradiction|]. unfold Np.array.
  destruct (forallb _ rs) eqn:E; [|reflexivity].
  exfalso. apply Hne. rewrite forallb_forall in E.
  assert (Hall : forall x, In x (r0 :: rs) -> List.length x = List.length r0).
  { intros x [<-|Hx]; [reflexivity|]. now apply Nat.eqb_eq, E. }
  now rewrite (Hall r Hr), (Hall r' Hr').
Qed.

Lemma Forall2_Forall_r {A B} (P : B -> Prop) (l : list A) (l' : list B) :
  Forall2 (fun _ b => P b) l l' -> Forall P l'.
Proof. induction 1; constructor; auto. Qed.

(** ** Division by zero *)

Lemma Qzero_true (q : Q) : (q == 0)%Q -> Np.Qzero q = true.
Proof. intros H. now apply Qeq_bool_iff. Qed.

Lemma Qzero_false (q : Q) : (0 < q)%Q -> Np.Qzero q = false.
Proof.
  intros H. unfold Np.Qzero. destruct (Qeq_bool q 0) eqn:E; [|reflexivity].
  apply Qeq_bool_eq in E. lra.
Qed.

Lemma Qneg_false (q : Q) : (0 <= q)%Q -> Np.Qneg q = false.
Proof. intros H. unfold Np.Qneg. now rewrite (proj2 (Qle_bool_iff 0 q) H). Qed.

(** The quotient of a positive number by zero is [inf]. *)
Lemma derived_width_inf (a z : Q) :
  (0 < a)%Q -> (z == 0)%Q -> derived_width a z = Np.Inf false.
Proof.
  intros Ha Hz. unfold derived_width. cbn [Np.pow Np.mul Np.div].
  assert (Hpos : (0 < 2 / 3.141592 * (a * (a * (a * (a * 1)))))%Q).
  { assert (0 < a * a)%Q by nra. assert (0 < (a * a) * (a * a))%Q by nra.
    assert (E : (2 / 3.141592 * (a * (a * (a * (a * 1))))
                 == 2 / 3.141592 * ((a * a) * (a * a)))%Q) by ring.
    rewrite E. assert (0 < 2 / 3.141592)%Q by reflexivity. nra. }
  rewrite (Qzero_true z Hz), (Qzero_false _ Hpos), Qneg_false; [reflexivity|lra].
Qed.

(** ** Writing to a file *)

Lemma content_setitem (fs : dict string) (f c : string) :
  content (setitem fs f c) f = c.
Proof. unfold content. now rewrite getitem_setitem. Qed.

Lemma write_spec so ds (fs : dict string) rr mi f c s :
  write f s (Build_world so ds (setitem fs f c) rr mi)
  = (Build_world so ds (setitem fs f (c ++ s)) rr mi, Ok tt).
Proof.
  unfold write, set_files; simpl.
  now rewrite content_setitem, setitem_setitem.
Qed.

Lemma for_each_write {A} (g : A -> string) (xs : list A) so ds fs rr mi f c :
  for_each xs (fun x => write f (g x)) (Build_world so ds (setitem fs f c) rr mi)
  = (Build_world so ds (setitem fs f (c ++ cat (map g xs))) rr mi, Ok tt).
Proof.
  revert c. induction xs as [|x xs IH]; intros c; simpl.
  - now rewrite append_nil_r.
  - unfold bind. rewrite write_spec, IH. now rewrite append_assoc.
Qed.

Lemma for_each_ext {A} (f g : A -> M unit) xs w :
  (forall x w', In x xs -> f x w' = g x w') -> for_each xs f w = for_each xs g w.
Proof.
  revert w. induction xs as [|x xs IH]; intros w H; simpl; [reflexivity|].
  unfold bind. rewrite H by (now left). destruct (g x w) as [w' [[]|e]]; [|reflexivity].
  apply IH. intros; apply H; now right.
Qed.

(** A loop whose passes all succeed, each adding to the file and to the
    calls of [write_module_inputs]. *)
Lemma for_each_steps {A} (body : A -> M unit) (line : A -> string)
    (calls : A -> list ModuleInputs.call) (xs : list A) so ds fs rr f :
  (forall x c mi, In x xs ->
     body x (Build_world so ds (setitem fs f c) rr mi)
     = (Build_world so ds (setitem fs f (c ++ line x)) rr (mi ++ calls x), Ok tt)) ->
  forall c mi,
    for_each xs body (Build_world so ds (setitem fs f c) rr mi)
    = (Build_world so ds (setitem fs f (c ++ cat (map line xs))) rr
         (mi ++ flat_map calls xs), Ok tt).
Proof.
  induction xs as [|x xs IH]; intros Hbody c mi; simpl.
  - now rewrite append_nil_r, app_nil_r.
  - unfold bind. rewrite Hbody by (now left).
    rewrite IH by (intros; apply Hbody; now right).
    now rewrite append_assoc, <- app_assoc.
Qed.

Lemma join_inj_r (a x y : string) : join a x = join a y -> x = y.
Proof.
  unfold join. destruct (String.eqb a ""); [auto|].
  destruct (ends_with_slash a); intros H; apply append_inj_l in H; auto.
  now injection H.
Qed.

Lemma design_paths_differ d basedir :
  design_ranges_path d basedir <> design_points_path d basedir.
Proof.
  unfold design_points_path, design_ranges_path. intros H.
  apply join_inj_r in H. discriminate H.
Qed.

Lemma content_design_points (fs : dict string) d basedir t1 t2 :
  content (setitem (setitem fs (design_points_path d basedir) t1)
             (design_ranges_path d basedir) t2) (design_points_path d basedir)
  = t1.
Proof.
  unfold content.
  rewrite getitem_setitem_other by apply design_paths_differ.
  now rewrite getitem_setitem.
Qed.

(** ** The sampler *)

(** Two calls with the same arguments return the same array when R answers
    both runs alike; whether it does is up to R. *)
Lemma generate_lhs_same_answer run_R npoints ndim seed w1 w2 :
  run_R (List.length (R_runs w1)) seed npoints ndim
  = run_R (List.length (R_runs w2)) seed npoints ndim ->
  snd (generate_lhs run_R npoints ndim seed w1)
  = snd (generate_lhs run_R npoints ndim seed w2).
Proof.
  intros H. unfold generate_lhs. rewrite H.
  now destruct (Z.eqb _ 0).
Qed.

(** ** The constructor *)

Lemma norm_range_subscript (e : Z) :
  subscript Design.norm_range_table e
  = if Z.eqb e 2760 then Ok (10, 18)%Q else Raise (KeyError (KInt e)).
Proof.
  unfold Design.norm_range_table, subscript. now rewrite Z.eqb_sym.
Qed.

Lemma init_unknown_energy run_R s0 s1 e npoints validation seed w :
  e <> 2760%Z ->
  Design.__init__ run_R (s0, s1, e) npoints validation seed w
  = (printed s0 s1 e w, Raise (KeyError (KInt e))).
Proof.
  intros He. unfold Design.__init__.
  cbv beta iota delta [bind print lift]. rewrite norm_range_subscript.
  destruct (Z.eqb_spec e 2760) as [E|E]; [congruence|].
  reflexivity.
Qed.

Lemma init_inv run_R s0 s1 e npoints validation seed w w' r :
  Design.__init__ run_R (s0, s1, e) npoints validation seed w = (w', r) ->
  let sd := seed_used validation seed in
  let proc := run_R (List.length (R_runs w)) sd npoints 10%Z in
  (e <> 2760%Z /\ w' = printed s0 s1 e w /\ r = Raise (KeyError (KInt e)))
  \/ (e = 2760%Z /\ w' = log_R_run sd npoints 10 (printed s0 s1 e w)
      /\ match r with
         | Ok d => fst proc = 0%Z /\ Built s0 s1 e npoints validation (snd proc) d
         | Raise ex =>
             (fst proc = 0%Z /\ ex = ValueError)
             \/ (fst proc <> 0%Z
                 /\ ex = CalledProcessError (fst proc) ["R"; "--slave"])
         end).
Proof.
  intros H sd proc.
  destruct (Z.eq_dec e 2760) as [->|He].
  2:{ left. rewrite init_unknown_energy in H by assumption.
      injection H as <- <-. auto. }
  right.
  unfold Design.__init__ in H.
  cbv beta iota delta [bind print lift] in H. rewrite norm_range_subscript in H.
  change (2760 =? 2760)%Z with true in H. cbv beta iota in H.
  change (Np.zip_with Qminus _ _)
    with (Ok (map (fun p => (snd p - fst p)%Q) sampled_ranges)) in H.
  cbv beta iota in H.
  unfold generate_lhs in H.
  change (Z.of_nat _) with 10%Z in H.
  change (match seed with Some s => s | None => Design.default_seed validation end)
    with sd in H.
  change (R_runs _) with (R_runs w) in H.
  fold proc in H.
  match type of H with
  | context [log_R_run sd npoints 10 ?W] =>
      change W with (printed s0 s1 2760 w) in H
  end.
  destruct (Z.eqb_spec (fst proc) 0) as [Hrc|Hrc].
  2:{ injection H as <- <-. split; [reflexivity|]. split; [reflexivity|]. right. auto. }
  destruct (Np.array (snd proc)) as [lhs|ex] eqn:Harr.
  2:{ injection H as <- <-. do 2 (split; [reflexivity|]). left.
      split; [assumption|]. eapply array_raise; eauto. }
  destruct (Np.vec_op Qmult _ lhs) as [a1|ex] eqn:H1.
  2:{ injection H as <- <-. do 2 (split; [reflexivity|]). left.
      split; [assumption|]. eapply vec_op_raise; eauto. }
  destruct (Np.vec_op Qplus _ a1) as [a2|ex] eqn:H2.
  2:{ injection H as <- <-. do 2 (split; [reflexivity|]). left.
      split; [assumption|]. eapply vec_op_raise; eauto. }
  unfold ret in H. injection H as <- <-. do 2 (split; [reflexivity|]).
  split; [assumption|].
  apply array_inv in Harr. destruct Harr as [[Hm ->]|[Hm ->]].
  { discriminate H1. }
  unfold Np.vec_op in H1, H2.
  destruct (Np.map_rows _ (snd proc)) as [rs|] eqn:E1; [|discriminate].
  injection H1 as <-.
  destruct (Np.map_rows _ rs) as [rs'|] eqn:E2; [|discriminate].
  injection H2 as <-.
  destruct (scale_rows _ _ _ E1 E2) as [-> Hall].
  constructor; try reflexivity; auto.
Qed.

(** From a constructor that returned a design [d] to what is known of [d]. *)
Ltac built H B :=
  apply init_inv in H;
  destruct H as [(_ & _ & H)|(-> & _ & _ & B)]; [discriminate|].

(** ** The files of a design *)

Lemma point_kwargs_built (d : Design.t) (row : list Q) :
  Design.keys d = sampled_keys -> Design.beam_energy d = 2760%Z ->
  List.length row = 10%nat ->
  Design.point_kwargs d (Some row) = Ok (kwargs_view (Design.projectiles d) row).
Proof.
  intros Hk Hb Hlen.
  destruct (length_10_inv row Hlen) as (a0&a1&a2&a3&a4&a5&a6&a7&a8&a9&->).
  unfold Design.point_kwargs. rewrite Hk, Hb. reflexivity.
Qed.

Lemma module_call_built (d : Design.t) outdir point (row : list Q) :
  List.length row = 10%nat ->
  exists c, Design.module_call d outdir point (kwargs_view (Design.projectiles d) row) = Ok c.
Proof.
  intros Hlen.
  destruct (length_10_inv row Hlen) as (a0&a1&a2&a3&a4&a5&a6&a7&a8&a9&->).
  eexists. reflexivity.
Qed.

Lemma point_calls_built d outdir point row :
  Design.keys d = sampled_keys -> Design.beam_energy d = 2760%Z ->
  List.length row = 10%nat ->
  exists c,
    point_calls d outdir (point, Some row) = [c]
    /\ Design.module_call d outdir point (kwargs_view (Design.projectiles d) row) = Ok c.
Proof.
  intros Hk Hb Hlen. unfold point_calls. cbn [fst snd].
  rewrite point_kwargs_built by assumption.
  destruct (module_call_built d outdir point row Hlen) as [c Hc].
  exists c. now rewrite Hc.
Qed.

Section WriteFiles.
Variable str_float : Np.float64 -> string.

Lemma write_point_ok self outdir f point row kw call so ds fs rr mi c :
  Design.point_kwargs self row = Ok kw ->
  Design.module_call self outdir point kw = Ok call ->
  Design.write_point str_float self outdir f point row
    (Build_world so ds (setitem fs f c) rr mi)
  = (Build_world so ds
       (setitem fs f (c ++ point_line str_float self (point, row))) rr
       (mi ++ point_calls self outdir (point, row)), Ok tt).
Proof.
  intros Hkw Hcall. unfold Design.write_point, point_line, point_calls.
  cbn [fst snd]. rewrite Hkw.
  cbv beta iota delta [bind lift write_module_inputs].
  cbn [stdout dirs files R_runs module_inputs].
  rewrite Hcall, write_spec.
  rewrite (for_each_ext _
    (fun key => write f ("," ++ Design.str str_float (get_or_empty kw key)))).
  2:{ intros k w' Hk. now rewrite (getitem_in_keys _ _ Hk). }
  rewrite for_each_write, write_spec.
  now rewrite !append_assoc.
Qed.

Lemma write_files_built s0 s1 e npoints validation m d basedir w :
  Built s0 s1 e npoints validation m d ->
  Design.write_files str_float d basedir w
  = ({| stdout := stdout w;
        dirs := mkdir_dirs (dirs w) (outdir_of d basedir);
        files := setitem (setitem (files w) (design_points_path d basedir)
                            (design_points_text str_float d))
                   (design_ranges_path d basedir) (design_ranges_text str_float d);
        R_runs := R_runs w;
        module_inputs :=
          app (module_inputs w)
              (flat_map (point_calls d (outdir_of d basedir))
                 (combine (Design.points d) (Design.iter_array (Design.array d)))) |},
     Ok tt).
Proof.
  intros B. destruct w as [so ds fs rr mi].
  unfold Design.write_files.
  cbv beta iota zeta delta [bind mkdir open_w close ret set_files].
  cbn [stdout dirs files R_runs module_inputs].
  fold (outdir_of d basedir) (design_points_path d basedir) (design_ranges_path d basedir).
  fold (mkdir_dirs ds (outdir_of d basedir)).
  rewrite write_spec, for_each_write, write_spec.
  rewrite (for_each_steps _ (point_line str_float d)
             (point_calls d (outdir_of d basedir))).
  2:{ intros [point row] c mi' Hin. cbn [fst snd].
      apply in_combine_r in Hin. rewrite (built_array B) in Hin.
      cbn [Design.iter_array] in Hin. rewrite map_map in Hin.
      apply in_map_iff in Hin. destruct Hin as (r & <- & Hr).
      assert (Hlen : List.length (scale_row (Design.range d) (spread 10 r)) = 10%nat).
      { rewrite (built_range B). apply scale_row_length.
        destruct (built_sample B) as [_ Hall].
        rewrite Forall_forall in Hall. now apply Hall. }
      destruct (module_call_built d (outdir_of d basedir) point _ Hlen) as [call Hcall].
      eapply write_point_ok; [|exact Hcall].
      apply point_kwargs_built; [apply (built_keys B)
                                | apply (built_energy B) | exact Hlen]. }
  cbv beta iota.
  cbn [stdout dirs files R_runs module_inputs].
  rewrite write_spec.
  rewrite (for_each_ext _
    (fun i => write (design_ranges_path d basedir)
                (range_line str_float
                   (nth (Z.to_nat i) (combine (Design.keys d) (Design.range d))
                        ("", (0, 0)%Q))))).
  2:{ intros i w' Hin.
      rewrite (built_keys B), (built_range B) in *.
      cbn in Hin.
      repeat (destruct Hin as [<-|Hin]; [reflexivity|]). contradiction. }
  rewrite for_each_write.
  unfold design_points_text, design_ranges_text.
  rewrite (built_keys B), (built_range B).
  cbn [append]. rewrite !append_assoc. reflexivity.
Qed.

End WriteFiles.

Lemma design_ranges_text_csv str_float d :
  design_ranges_text str_float d
  = cat (map csv_line
           (["param"; "min"; "max"]
            :: range_rows str_float (combine (Design.keys d) (Design.range d)))).
Proof.
  unfold design_ranges_text, range_rows. cbn [map cat fold_right].
  change (csv_line ["param"; "min"; "max"]) with ("param,min,max" ++ nl).
  rewrite append_assoc, map_map.
  do 2 f_equal. unfold cat. f_equal.
  apply map_ext. intros kr. unfold range_line, csv_line. cbn [String.concat].
  now rewrite !append_assoc.
Qed.

Lemma design_points_text_csv str_float s0 s1 e npoints validation m d :
  Built s0 s1 e npoints validation m d ->
  design_points_text str_float d
  = cat (map csv_line
           (("idx" :: Design.keys d)
            :: map (point_fields str_float s0) (combine (Design.points d) m))).
Proof.
  intros B. unfold design_points_text.
  cbn [map cat fold_right]. rewrite <- csv_line_cons, !append_assoc.
  do 3 apply f_equal.
  rewrite (built_array B).
  cbn [Design.iter_array]. rewrite (map_map _ Some), combine_map_r, !map_map.
  apply f_equal. apply map_ext_in. intros [p r] Hin. cbn [fst snd].
  apply in_combine_r in Hin.
  destruct (built_sample B) as [_ Hall].
  rewrite Forall_forall in Hall. specialize (Hall r Hin).
  pose proof (scale_row_length r Hall) as Hlen.
  unfold point_line, point_fields. cbn [fst snd].
  rewrite (built_range B).
  rewrite point_kwargs_built;
    [|apply (built_keys B)|apply (built_energy B)
     |exact Hlen].
  rewrite (built_projectiles B).
  rewrite <- csv_line_cons. fold sampled_ranges.
  destruct (length_10_inv _ Hlen) as (a0&a1&a2&a3&a4&a5&a6&a7&a8&a9&->).
  reflexivity.
Qed.


(** The shape of the design-point table of any design: eleven names in the
    header, thirteen fields in every row. *)
Lemma design_points_table_shape str_float s0 s1 e npoints validation m d :
  Built s0 s1 e npoints validation m d ->
  let rows := map (point_fields str_float s0) (combine (Design.points d) m) in
  design_points_text str_float d
  = cat (map csv_line (("idx" :: Design.keys d) :: rows))
  /\ List.length ("idx" :: Design.keys d) = 11%nat
  /\ Forall (fun r => List.length r = 13%nat) rows.
Proof.
  intros B rows. split; [exact (design_points_text_csv _ _ _ _ _ _ _ _ B)|].
  split; [now rewrite (built_keys B)|].
  unfold rows. rewrite Forall_map. apply Forall_forall. intros [p r] Hin.
  apply in_combine_r in Hin.
  destruct (built_sample B) as [_ Hall].
  rewrite Forall_forall in Hall.
  pose proof (scale_row_length r (Hall r Hin)) as Hlen.
  unfold point_fields. cbn [fst snd].
  destruct (length_10_inv _ Hlen) as (a0&a1&a2&a3&a4&a5&a6&a7&a8&a9&->).
  reflexivity.
Qed.

Lemma write_files_calls s0 s1 e npoints validation m d outdir :
  Built s0 s1 e npoints validation m d ->
  Forall2 (fun ps c =>
             let row := scale_row (Design.range d) (spread 10 (snd ps)) in
             List.length row = 10%nat
             /\ Design.module_call d outdir (fst ps)
                  (kwargs_view (Design.projectiles d) row) = Ok c)
          (combine (Design.points d) m)
          (flat_map (point_calls d outdir)
             (combine (Design.points d) (Design.iter_array (Design.array d)))).
Proof.
  intros B. rewrite (built_array B). cbn [Design.iter_array].
  pose proof (built_keys B) as Hk.
  pose proof (proj1 (built_energy B)) as Hb.
  pose proof (built_range B) as Hrg.
  destruct (built_sample B) as [_ Hall]. clear B.
  generalize (Design.points d) as pts.
  induction Hall as [|r m Hr _ IH]; intros pts.
  - destruct pts; cbn; constructor.
  - destruct pts as [|p pts]; [cbn; constructor|].
    cbn [map combine flat_map].
    assert (Hlen : List.length (scale_row (Design.range d) (spread 10 r)) = 10%nat).
    { rewrite Hrg. now apply scale_row_length. }
    destruct (point_calls_built d outdir p _ Hk Hb Hlen) as (c & -> & Hc).
    cbn [app]. constructor; [|apply IH]. cbn [fst snd]. auto.
Qed.

(** ** The claims *)

Section Pipeline.
Variable run_R : nat -> Z -> Z -> Z -> Z * list (list Q).
Variable str_float : Np.float64 -> string.

(** C2.  Every configuration error is raised before any sampling begins and
    leaves nothing behind.  Build a design and write its files, from any
    world: if that raises a [KeyError], the key is the beam energy of the
    system, the norm table does not have it, and by then R was not run, no
    directory was made, no file was opened and [write_module_inputs] was not
    called.  A beam energy that the cross-section table does not have is such
    a case: the constructor refuses it, before the lookup in [write_files]
    can. *)
Theorem configuration_errors_precede_sampling
    system npoints validation seed basedir w :
  let run := (d <- Design.__init__ run_R system npoints validation seed ;;
              Design.write_files str_float d basedir) w in
  (forall k, snd run = Raise (KeyError k) ->
     k = KInt (snd system)
     /\ ~ In (snd system) (map fst Design.norm_range_table)
     /\ R_runs (fst run) = R_runs w /\ dirs (fst run) = dirs w
     /\ files (fst run) = files w
     /\ module_inputs (fst run) = module_inputs w)
  /\ (~ In (snd system) (map fst Design.cross_section_table) ->
      snd run = Raise (KeyError (KInt (snd system)))).
Proof.
  destruct system as [[s0 s1] e]. cbv zeta. unfold bind. cbn [snd].
  destruct (Design.__init__ run_R (s0, s1, e) npoints validation seed w)
    as [w1 r] eqn:H.
  apply init_inv in H. destruct H as [(He & -> & ->)|(-> & -> & H)].
  - split; [|reflexivity].
    intros k Hk. injection Hk as <-.
    split; [reflexivity|]. split; [|repeat split; reflexivity].
    intros [Hin|[]]. cbn in Hin. congruence.
  - split.
    + intros k. destruct r as [d|ex].
      * destruct H as [_ B]. rewrite (write_files_built _ _ _ _ _ _ _ _ _ _ B).
        discriminate.
      * cbn [snd]. intros Hk. injection Hk as ->.
        destruct H as [[_ H]|[_ H]]; discriminate.
    + intros Hnot. exfalso. apply Hnot. cbn. auto.
Qed.

(** C4.  Each column [j] of the design array is the affine image
    [floor_j + (max_j - floor_j) * u] of column [j] of the unit-cube sample,
    where the floor is the minimum of the range: [lhsmin] is a copy of
    [self.min], and the loop that would override it is commented out.  So a
    value sampled from [0, 1) lies between the minimum and the maximum of its
    range.  The design has ten dimensions and one row for every row that R
    printed; the statement covers the rows of ten numbers.  (Numbers are
    exact here: rounding is not modelled.) *)
Theorem design_array_is_affine
    s0 s1 e npoints validation seed w w' d :
  Design.__init__ run_R (s0, s1, e) npoints validation seed w = (w', Ok d) ->
  let m := snd (run_R (List.length (R_runs w)) (seed_used validation seed)
                  npoints 10%Z) in
  Design.ndim d = 10%nat
  /\ List.length (Design.range d) = 10%nat
  /\ exists rows,
       Design.array d = Np.Arr2 rows
       /\ List.length rows = List.length m
       /\ forall i j sample u,
            nth_error m i = Some sample ->
            List.length sample = 10%nat ->
            nth_error sample j = Some u ->
            exists row lo hi,
              nth_error rows i = Some row
              /\ List.length row = 10%nat
              /\ nth_error (Design.range d) j = Some (lo, hi)
              /\ nth_error (Design.min d) j = Some lo
              /\ nth_error (Design.max d) j = Some hi
              /\ nth_error row j = Some (lo + (hi - lo) * u)%Q
              /\ ((0 <= u)%Q -> (u < 1)%Q ->
                  (lo <= lo + (hi - lo) * u)%Q /\ (lo + (hi - lo) * u <= hi)%Q).
Proof.
  intros H m. built H B. fold m in B.
  split; [apply (built_ndim B)|].
  split; [now rewrite (built_range B)|].
  eexists. split; [apply (built_array B)|].
  split; [apply length_map|].
  intros i j sample u Hi Hlen Hj.
  assert (Hjlt : (j < 10)%nat).
  { rewrite <- Hlen. apply nth_error_Some. congruence. }
  destruct (nth_error (Design.range d) j) as [[lo hi]|] eqn:Hr.
  2:{ apply nth_error_None in Hr. rewrite (built_range B) in Hr.
      cbn in Hr. lia. }
  exists (scale_row (Design.range d) sample), lo, hi.
  assert (Hsp : spread 10 sample = sample).
  { destruct (length_10_inv _ Hlen) as (a0&a1&a2&a3&a4&a5&a6&a7&a8&a9&->).
    reflexivity. }
  split.
  { rewrite nth_error_map, Hi. cbn. now rewrite Hsp. }
  split.
  { rewrite <- Hsp at 1. rewrite (built_range B). apply scale_row_length. now left. }
  split; [reflexivity|].
  split; [rewrite (built_min B), nth_error_map, Hr; reflexivity|].
  split; [rewrite (built_max B), nth_error_map, Hr; reflexivity|].
  split; [now apply nth_error_scale_row|].
  intros H0 H1.
  assert (Hle : (lo <= hi)%Q).
  { rewrite (built_range B) in Hr.
    do 10 (destruct j as [|j]; [injection Hr as <- <-; discriminate|]).
    lia. }
  split; nra.
Qed.

(** C5.  A beam energy that the norm-range table does not have makes the
    constructor raise [KeyError] on it; for one that the table has, the first
    key of the design is [norm] and its range is the entry of the table. *)
Theorem norm_range_by_beam_energy s0 s1 e npoints validation seed w :
  (~ In e (map fst Design.norm_range_table) ->
   snd (Design.__init__ run_R (s0, s1, e) npoints validation seed w)
   = Raise (KeyError (KInt e)))
  /\ (forall r w' d,
        In (e, r) Design.norm_range_table ->
        Design.__init__ run_R (s0, s1, e) npoints validation seed w = (w', Ok d) ->
        hd_error (Design.keys d) = Some "norm"
        /\ hd_error (Design.range d) = Some r).
Proof.
  split.
  - intros Hnot. rewrite init_unknown_energy; [reflexivity|].
    intros ->. apply Hnot. now left.
  - intros r w' d Hin H. apply init_inv in H.
    destruct H as [(_ & _ & H)|(-> & _ & _ & B)]; [discriminate|].
    destruct Hin as [Hin|[]]. injection Hin as <-.
    rewrite (built_keys B), (built_range B).
    split; reflexivity.
Qed.

(** C7.  The range table of a design starts with the line [param,min,max];
    one row per key follows, each starting with its key; and reading the
    table back gives the keys with the ranges of the design, exactly,
    whenever the parser undoes the formatting of the bounds that are written
    and the formatting puts neither a comma nor a newline in them (Python's
    [str] and [float] are such a pair). *)
Theorem range_manifest_round_trip
    (parse_float : string -> option Q)
    s0 s1 e npoints validation seed basedir w w1 d :
  Design.__init__ run_R (s0, s1, e) npoints validation seed w = (w1, Ok d) ->
  (forall q, In q (Design.min d ++ Design.max d)%list ->
     parse_float (str_float (Np.Finite q)) = Some q
     /\ clean (str_float (Np.Finite q)) = true) ->
  exists w2,
    Design.write_files str_float d basedir w1 = (w2, Ok tt)
    /\ let text := content (files w2) (design_ranges_path d basedir) in
       hd_error (lines text) = Some "param,min,max"
       /\ List.length (tl (lines text)) = List.length (Design.keys d)
       /\ map (@hd_error string) (tl (read_table text)) = map Some (Design.keys d)
       /\ read_ranges parse_float text
          = Some (combine (Design.keys d) (Design.range d)).
Proof.
  intros H Hfmt. built H B.
  rewrite (write_files_built _ _ _ _ _ _ _ _ _ _ B).
  eexists. split; [reflexivity|]. cbn [files]. rewrite content_setitem.
  cbv zeta. rewrite design_ranges_text_csv.
  set (krs := combine (Design.keys d) (Design.range d)).
  assert (Hkr : forall k lo hi, In (k, (lo, hi)) krs ->
            In k (Design.keys d) /\ In lo (Design.min d) /\ In hi (Design.max d)).
  { intros k lo hi Hin. split; [exact (in_combine_l _ _ _ _ Hin)|].
    apply in_combine_r in Hin.
    rewrite (built_min B), (built_max B).
    split; [apply (in_map fst _ _ Hin) | apply (in_map snd _ _ Hin)]. }
  assert (Hclean : Forall (fun r => r <> [] /\ Forall (fun f => clean f = true) r)
                     (["param"; "min"; "max"] :: range_rows str_float krs)).
  { constructor.
    - split; [discriminate | repeat constructor].
    - unfold range_rows. rewrite Forall_map. apply Forall_forall.
      intros [k [lo hi]] Hin. cbn [fst snd]. split; [discriminate|].
      destruct (Hkr _ _ _ Hin) as (Hk & Hlo & Hhi).
      repeat constructor.
      + rewrite (built_keys B) in Hk. cbn in Hk.
        repeat (destruct Hk as [<-|Hk]; [reflexivity|]). contradiction.
      + apply Hfmt, in_or_app. now left.
      + apply Hfmt, in_or_app. now right. }
  rewrite (lines_csv _ Hclean).
  unfold read_ranges. rewrite (read_table_csv _ Hclean).
  cbn [map hd_error tl String.concat].
  split; [reflexivity|].
  split.
  { unfold range_rows. rewrite !length_map. unfold krs. rewrite length_combine.
    rewrite (built_keys B), (built_range B).
    reflexivity. }
  split.
  { unfold range_rows. rewrite map_map. cbn [hd_error]. unfold krs.
    rewrite (built_keys B), (built_range B).
    reflexivity. }
  apply read_range_rows_ok. intros k lo hi Hin.
  destruct (Hkr _ _ _ Hin) as (_ & Hlo & Hhi).
  split; apply Hfmt, in_or_app; auto.
Qed.

(** C8.  The seed with which the constructor runs R is the one the caller
    gives; without one it is 450829120 for a main design and 751783496 for a
    validation design, and the two differ. *)
Theorem default_seeds_differ s0 s1 npoints validation seed w :
  R_runs (fst (Design.__init__ run_R (s0, s1, 2760%Z) npoints validation seed w))
  = (R_runs w ++ [ (match seed with
                    | Some s => s
                    | None => if validation then 751783496%Z else 450829120%Z
                    end, npoints, 10%Z) ])%list
  /\ Design.default_seed false <> Design.default_seed true.
Proof.
  split; [|discriminate].
  destruct (Design.__init__ run_R (s0, s1, 2760%Z) npoints validation seed w)
    as [w' r] eqn:H.
  apply init_inv in H. destruct H as [(He & _)|(_ & -> & _)]; [congruence|].
  reflexivity.
Qed.

(** C9, as amended.  The division by the sampled [zeta_over_s_max] has no
    guard, and it does not raise: the operands are numpy scalars.
    [write_files] returns for every design.  For a point whose sample row
    has a 0 in the [zeta_over_s_max] column (and no negative entry in the
    [zeta_over_s_area_fourth] column), [zeta_over_s_max] is 0 and the width
    is [inf], both in the call of [write_module_inputs] for the point and in
    its row of the design-point table, where [str(inf)] is the last field.
    There is one call and one row for every point that has a sample row. *)
Theorem zero_divisor_gives_inf
    s0 s1 e npoints validation seed basedir w w1 d :
  Design.__init__ run_R (s0, s1, e) npoints validation seed w = (w1, Ok d) ->
  let m := snd (run_R (List.length (R_runs w)) (seed_used validation seed)
                  npoints 10%Z) in
  exists w2 calls rows,
    Design.write_files str_float d basedir w1 = (w2, Ok tt)
    /\ module_inputs w2 = (module_inputs w1 ++ calls)%list
    /\ content (files w2) (design_points_path d basedir)
       = cat (map csv_line (("idx" :: Design.keys d) :: rows))
    /\ Forall2 (fun ps c =>
                  forall u6 u8,
                    List.length (snd ps) = 10%nat ->
                    nth_error (snd ps) 6 = Some u6 ->
                    nth_error (snd ps) 8 = Some u8 ->
                    (u6 == 0)%Q -> (0 <= u8)%Q ->
                    ModuleInputs.design_point_id c = fst ps
                    /\ (exists zmax,
                          ModuleInputs.zeta_over_s_max c = VFloat (Np.Finite zmax)
                          /\ (zmax == 0)%Q)
                    /\ ModuleInputs.zeta_over_s_width_in_GeV c
                       = VFloat (Np.Inf false))
               (combine (Design.points d) m) calls
    /\ Forall2 (fun ps fields =>
                  forall u6 u8,
                    List.length (snd ps) = 10%nat ->
                    nth_error (snd ps) 6 = Some u6 ->
                    nth_error (snd ps) 8 = Some u8 ->
                    (u6 == 0)%Q -> (0 <= u8)%Q ->
                    hd_error fields = Some (fst ps)
                    /\ List.length fields = 13%nat
                    /\ last fields "" = str_float (Np.Inf false))
               (combine (Design.points d) m) rows.
Proof.
  intros H m. built H B. fold m in B.
  rewrite (write_files_built _ _ _ _ _ _ _ _ _ _ B).
  do 3 eexists. split; [reflexivity|]. cbn [module_inputs files].
  split; [reflexivity|].
  split.
  { rewrite content_design_points.
    exact (design_points_text_csv _ _ _ _ _ _ _ _ B). }
  assert (Hinf : forall u6 u8, (u6 == 0)%Q -> (0 <= u8)%Q ->
            derived_width
              (Design.area_fourth_min
               + (Design.area_fourth_max - Design.area_fourth_min) * u8)
              (0.0 + (0.3 - 0.0) * u6) = Np.Inf false).
  { intros u6 u8 Hz Hu. apply derived_width_inf.
    - unfold Design.area_fourth_min, Design.area_fourth_max. nra.
    - rewrite Hz. reflexivity. }
  split.
  - pose proof (write_files_calls _ _ _ _ _ _ _ (outdir_of d basedir) B) as HF.
    eapply Forall2_impl; [|exact HF].
    intros [p r] c [_ Hc] u6 u8 Hlen H6 H8 Hz Hu. cbn [fst snd] in *.
    rewrite (built_range B) in Hc.
    destruct (length_10_inv _ Hlen) as (a0&a1&a2&a3&a4&a5&a6&a7&a8&a9&->).
    injection H6 as ->. injection H8 as ->.
    injection Hc as <-.
    cbn [ModuleInputs.design_point_id ModuleInputs.zeta_over_s_max
         ModuleInputs.zeta_over_s_width_in_GeV].
    split; [reflexivity|]. split.
    + eexists. split; [reflexivity|]. rewrite Hz. reflexivity.
    + f_equal. now apply Hinf.
  - apply Forall2_map_r. intros [p r] _ u6 u8 Hlen H6 H8 Hz Hu.
    cbn [fst snd] in *.
    destruct (length_10_inv _ Hlen) as (a0&a1&a2&a3&a4&a5&a6&a7&a8&a9&->).
    injection H6 as ->. injection H8 as ->.
    split; [reflexivity|]. split; [reflexivity|].
    unfold point_fields. cbn [fst snd spread scale_row sampled_ranges
      Design.parameters map combine kwargs_view last Design.str].
    now rewrite Hinf.
Qed.

(** C10.  [write_module_inputs] is called once for every design point that
    has a row in the sample, in the order of the points and with the id of
    the point.  Its [target] argument, like its [projectile] argument, is
    the first component of the system, whatever the second one is: the
    second component is kept in the [target] attribute of the design, and
    [write_files] does the same whatever that attribute holds. *)
Theorem module_inputs_target_is_projectile
    s0 s1 e npoints validation seed basedir w w1 d :
  Design.__init__ run_R (s0, s1, e) npoints validation seed w = (w1, Ok d) ->
  let m := snd (run_R (List.length (R_runs w)) (seed_used validation seed)
                  npoints 10%Z) in
  exists w2 calls,
    Design.write_files str_float d basedir w1 = (w2, Ok tt)
    /\ module_inputs w2 = (module_inputs w1 ++ calls)%list
    /\ List.length calls = Nat.min (Z.to_nat npoints) (List.length m)
    /\ map ModuleInputs.design_point_id calls
       = firstn (List.length m) (map str_int (Py.range npoints))
    /\ Forall (fun c => ModuleInputs.projectile c = s0
                        /\ ModuleInputs.target c = s0) calls
    /\ Design.target d = s1
    /\ forall t w0,
         Design.write_files str_float (with_target d t) basedir w0
         = Design.write_files str_float d basedir w0.
Proof.
  intros H m. built H B. fold m in B.
  rewrite (write_files_built _ _ _ _ _ _ _ _ _ _ B).
  do 2 eexists. split; [reflexivity|]. cbn [module_inputs]. split; [reflexivity|].
  pose proof (write_files_calls _ _ _ _ _ _ _ (outdir_of d basedir) B) as HF.
  assert (HF' : Forall2 (fun ps c =>
                           ModuleInputs.design_point_id c = fst ps
                           /\ ModuleInputs.projectile c = s0
                           /\ ModuleInputs.target c = s0)
                  (combine (Design.points d) m)
                  (flat_map (point_calls d (outdir_of d basedir))
                     (combine (Design.points d)
                        (Design.iter_array (Design.array d))))).
  { eapply Forall2_impl; [|exact HF].
    intros [p r] c [Hlen Hc]. cbn [fst snd] in *.
    destruct (length_10_inv _ Hlen) as (a0&a1&a2&a3&a4&a5&a6&a7&a8&a9&E).
    rewrite E in Hc. injection Hc as <-.
    rewrite (built_projectiles B). auto. }
  split.
  { rewrite <- (Forall2_length HF'), (built_points B).
    apply length_combine_range. }
  split.
  { rewrite <- (built_points B), <- map_fst_combine.
    apply Forall2_map_eq. eapply Forall2_impl; [|exact HF'].
    now intros ps c (Hid & _). }
  split.
  { apply (Forall2_Forall_r _ (combine (Design.points d) m)).
    eapply Forall2_impl; [|exact HF']. now intros ps c (_ & Hp & Ht). }
  split; [apply (built_target B)|].
  intros t w0. destruct d. reflexivity.
Qed.

End Pipeline.

(** C1 fails on the code.  The design-point table of Pb-Pb at 2760 GeV with
    one point, sampled at the middle of every range: the header names the ten
    keys after [idx], the row holds twelve values after the id.  No value of
    [zeta_over_s_area_fourth] is written, so that of
    [zeta_over_s_lambda_asymm] stands under its key, and the projectile, the
    cross section and the derived width follow under no key at all. *)
Theorem design_points_rows_disagree_with_header (str_float : Np.float64 -> string) :
  let run := main_step (R_constant (1 # 2)) str_float 1 "inputs"
               ("Pb", "Pb", 2760%Z) false empty_world in
  let str q := str_float (Np.Finite q) in
  snd run = Ok tt
  /\ content (files (fst run)) "inputs/design_points_main_PbPb-2760.dat"
     = cat (map csv_line
         [ [ "idx"; "norm"; "fluct_k"; "nucleon_width"; "tau_R"; "alpha";
             "eta_over_s_at_kink"; "zeta_over_s_max";
             "zeta_over_s_T_peak_in_GeV"; "zeta_over_s_area_fourth";
             "zeta_over_s_lambda_asymm" ];
           [ "0"; str (midpoint 10 18); str (midpoint 0.3 3.0);
             str (midpoint 0.4 1.5); str (midpoint 0.5 2.0);
             str (midpoint (-0.5) 0.0); str (midpoint 0.01 0.25);
             str (midpoint 0.0 0.3); str (midpoint 0.1 0.5);
             str (midpoint (-0.8) 0.8);
             "Pb"; str 6.4;
             str_float
               (derived_width
                  (midpoint Design.area_fourth_min Design.area_fourth_max)
                  (midpoint 0.0 0.3)) ] ]).
Proof.
  intros run str.
  assert (H : exists w1 d,
             Design.__init__ (R_constant (1 # 2)) ("Pb", "Pb", 2760%Z) 1 false None
               empty_world = (w1, Ok d)) by (vm_compute; eauto).
  destruct H as (w1 & d & H).
  unfold run, main_step, bind. rewrite H.
  apply init_inv in H. destruct H as [(H & _)|(_ & -> & _ & B)]; [congruence|].
  rewrite (write_files_built _ _ _ _ _ _ _ _ _ _ B).
  split; [reflexivity|]. cbn [fst files].
  replace "inputs/design_points_main_PbPb-2760.dat"
    with (design_points_path d "inputs").
  2:{ unfold design_points_path.
      now rewrite (built_type B), (built_system B). }
  rewrite content_design_points, (design_points_text_csv _ _ _ _ _ _ _ _ B).
  rewrite (built_keys B), (built_points B).
  reflexivity.
Qed.

Lemma configuration_errors_precede_sampling_witness :
  let run := (d <- Design.__init__ (R_constant (1 # 2)) ("Pb", "Pb", 7000%Z) 3
                     false None ;;
              Design.write_files show d "inputs") empty_world in
  (snd run = Raise (KeyError (KInt 7000))
   /\ ~ In 7000%Z (map fst Design.cross_section_table))
  /\ (KInt 7000 = KInt 7000
      /\ ~ In 7000%Z (map fst Design.norm_range_table)
      /\ R_runs (fst run) = [] /\ dirs (fst run) = [] /\ files (fst run) = []
      /\ module_inputs (fst run) = [])
  /\ snd run = Raise (KeyError (KInt 7000)).
Proof.
  intros run.
  assert (Hraise : snd run = Raise (KeyError (KInt 7000))) by reflexivity.
  assert (Hnot : ~ In 7000%Z (map fst Design.cross_section_table)).
  { cbn. intros [H|[H|[H|[]]]]; discriminate H. }
  pose proof (configuration_errors_precede_sampling (R_constant (1 # 2)) show
                ("Pb", "Pb", 7000%Z) 3 false None "inputs" empty_world) as T.
  split; [split; assumption|].
  split; [exact (proj1 T _ Hraise) | exact (proj2 T Hnot)].
Defined.

Lemma design_array_is_affine_witness :
  exists w' d,
    Design.__init__ (R_constant (1 # 4)) ("Pb", "Pb", 2760%Z) 2 false None
      empty_world = (w', Ok d)
    /\ nth_error [repeat (1 # 4) 10; repeat (1 # 4) 10] 1 = Some (repeat (1 # 4) 10)
    /\ List.length (repeat (1 # 4) 10) = 10%nat
    /\ nth_error (repeat (1 # 4) 10) 0 = Some (1 # 4)
    /\ Design.ndim d = 10%nat
    /\ exists rows row,
         Design.array d = Np.Arr2 rows
         /\ List.length rows = 2%nat
         /\ nth_error rows 1 = Some row
         /\ List.length row = 10%nat
         /\ nth_error (Design.range d) 0 = Some (10, 18)%Q
         /\ nth_error row 0 = Some (10 + (18 - 10) * (1 # 4))%Q
         /\ (10 <= 10 + (18 - 10) * (1 # 4))%Q
         /\ (10 + (18 - 10) * (1 # 4) <= 18)%Q.
Proof.
  do 2 eexists. split; [vm_compute; reflexivity|].
  do 3 (split; [reflexivity|]).
  match goal with
  | |- Design.ndim ?d = _ /\ _ =>
      destruct (design_array_is_affine (R_constant (1 # 4)) "Pb" "Pb" 2760%Z 2
                  false None empty_world _ d ltac:(vm_compute; reflexivity))
        as (Hn & _ & rows & Ha & Hl & Hrows)
  end.
  split; [exact Hn|].
  destruct (Hrows 1%nat 0%nat (repeat (1 # 4) 10) (1 # 4)
              eq_refl eq_refl eq_refl)
    as (row & lo & hi & Hrow & Hlen & Hrg & _ & _ & Hv & Hb).
  injection Hrg as <- <-.
  exists rows, row.
  split; [exact Ha|]. split; [exact Hl|]. split; [exact Hrow|].
  split; [exact Hlen|]. split; [reflexivity|]. split; [exact Hv|].
  apply Hb; lra.
Defined.

Lemma norm_range_by_beam_energy_witness :
  (~ In 5020%Z (map fst Design.norm_range_table)
   /\ snd (Design.__init__ (R_constant (1 # 2)) ("Pb", "Pb", 5020%Z) 2 false None
             empty_world) = Raise (KeyError (KInt 5020)))
  /\ exists w' d,
       (In (2760%Z, (10, 18)%Q) Design.norm_range_table
        /\ Design.__init__ (R_constant (1 # 2)) ("Pb", "Pb", 2760%Z) 2 false None
             empty_world = (w', Ok d))
       /\ hd_error (Design.keys d) = Some "norm"
       /\ hd_error (Design.range d) = Some (10, 18)%Q.
Proof.
  assert (H5020 : ~ In 5020%Z (map fst Design.norm_range_table))
    by (intros [H|[]]; discriminate H).
  split.
  - split; [exact H5020|].
    exact (proj1 (norm_range_by_beam_energy (R_constant (1 # 2)) "Pb" "Pb" 5020%Z
                    2 false None empty_world) H5020).
  - do 2 eexists.
    assert (Hin : In (2760%Z, (10, 18)%Q) Design.norm_range_table) by (now left).
    split; [split; [exact Hin | vm_compute; reflexivity]|].
    eapply (proj2 (norm_range_by_beam_energy (R_constant (1 # 2)) "Pb" "Pb"
                     2760%Z 2 false None empty_world) _ _ _ Hin).
    vm_compute. reflexivity.
Defined.

(** C6, as stated, fails.  With an R that refuses counts that are not
    positive, a call with zero points does end in an error, but R has been
    run with the zero by then, and the error is the failure of the process:
    it shows the exit status and the command, and is the same for zero
    points, for a negative number of points, for zero dimensions, and for
    good counts when R fails for another reason.  It names no count. *)
Lemma nonpositive_counts_are_not_reported :
  generate_lhs (R_refuses (1 # 2)) 0 10 1 empty_world
  = ({| stdout := []; dirs := []; files := []; R_runs := [(1, 0, 10)%Z];
        module_inputs := [] |},
     Raise (CalledProcessError 1 ["R"; "--slave"]))
  /\ snd (generate_lhs (R_refuses (1 # 2)) (-4) 10 1 empty_world)
     = Raise (CalledProcessError 1 ["R"; "--slave"])
  /\ snd (generate_lhs (R_refuses (1 # 2)) 5 0 1 empty_world)
     = Raise (CalledProcessError 1 ["R"; "--slave"])
  /\ snd (generate_lhs (R_exits 1) 5 10 1 empty_world)
     = Raise (CalledProcessError 1 ["R"; "--slave"]).
Proof. repeat split. Qed.

(** C6, as amended.  [generate_lhs] does not look at [npoints] or [ndim]:
    whatever their sign it runs R once, with them, and it writes nothing.
    What it returns is decided by that run: a status other than zero gives
    [CalledProcessError] with the status and the command; status zero and
    rows of unequal lengths give [ValueError]; status zero and rows of one
    length give the table that R printed, the empty array when R printed
    nothing.  (R is taken to run and to print numbers.) *)
Theorem generate_lhs_outcome_is_that_of_R
    (run_R : nat -> Z -> Z -> Z -> Z * list (list Q)) npoints ndim seed w :
  let proc := run_R (List.length (R_runs w)) seed npoints ndim in
  let run := generate_lhs run_R npoints ndim seed w in
  (R_runs (fst run) = (R_runs w ++ [(seed, npoints, ndim)])%list
   /\ files (fst run) = files w /\ dirs (fst run) = dirs w
   /\ stdout (fst run) = stdout w /\ module_inputs (fst run) = module_inputs w)
  /\ (fst proc <> 0%Z ->
      snd run = Raise (CalledProcessError (fst proc) ["R"; "--slave"]))
  /\ (fst proc = 0%Z ->
      (exists r r', In r (snd proc) /\ In r' (snd proc)
                    /\ List.length r <> List.length r') ->
      snd run = Raise ValueError)
  /\ (fst proc = 0%Z ->
      (forall r r', In r (snd proc) -> In r' (snd proc) ->
                    List.length r = List.length r') ->
      snd run = Ok (match snd proc with
                    | [] => Np.Arr1 []
                    | _ :: _ => Np.Arr2 (snd proc)
                    end)).
Proof.
  intros proc run. unfold run, generate_lhs. fold proc.
  split.
  { destruct (Z.eqb (fst proc) 0); repeat split. }
  split.
  { intros Hrc. apply Z.eqb_neq in Hrc. now rewrite Hrc. }
  split.
  - intros Hrc (r & r' & Hr & Hr' & Hne). rewrite Hrc. cbn [Z.eqb snd].
    exact (array_ragged _ _ _ Hr Hr' Hne).
  - intros Hrc Heven. rewrite Hrc. cbn [Z.eqb snd]. now apply array_even.
Qed.

Lemma generate_lhs_outcome_is_that_of_R_witness :
  (fst (R_exits 3 0%nat 1%Z (-4)%Z 10%Z) <> 0%Z
   /\ snd (generate_lhs (R_exits 3) (-4) 10 1 empty_world)
      = Raise (CalledProcessError 3 ["R"; "--slave"]))
  /\ ((fst (R_prints [[1]; [1; 2]]%Q 0%nat 1%Z 2%Z 2%Z) = 0%Z
       /\ exists r r', In r [[1]; [1; 2]]%Q /\ In r' [[1]; [1; 2]]%Q
                       /\ List.length r <> List.length r')
      /\ snd (generate_lhs (R_prints [[1]; [1; 2]]%Q) 2 2 1 empty_world)
         = Raise ValueError)
  /\ ((fst (R_constant (1 # 2) 0%nat 1%Z 2%Z 3%Z) = 0%Z
       /\ forall r r', In r (snd (R_constant (1 # 2) 0%nat 1%Z 2%Z 3%Z)) ->
                       In r' (snd (R_constant (1 # 2) 0%nat 1%Z 2%Z 3%Z)) ->
                       List.length r = List.length r')
      /\ snd (generate_lhs (R_constant (1 # 2)) 2 3 1 empty_world)
         = Ok (Np.Arr2 [[1 # 2; 1 # 2; 1 # 2]; [1 # 2; 1 # 2; 1 # 2]]%Q)).
Proof.
  assert (H1 : fst (R_exits 3 0%nat 1%Z (-4)%Z 10%Z) <> 0%Z) by discriminate.
  assert (H2 : exists r r', In r [[1]; [1; 2]]%Q /\ In r' [[1]; [1; 2]]%Q
                            /\ List.length r <> List.length r').
  { exists [1]%Q, [1; 2]%Q. split; [now left|]. split; [right; now left|].
    discriminate. }
  assert (H3 : forall r r',
             In r (snd (R_constant (1 # 2) 0%nat 1%Z 2%Z 3%Z)) ->
             In r' (snd (R_constant (1 # 2) 0%nat 1%Z 2%Z 3%Z)) ->
             List.length r = List.length r').
  { intros r r' [<-|[<-|[]]] [<-|[<-|[]]]; reflexivity. }
  split; [split; [exact H1|]|split; [split; [split; [reflexivity|exact H2]|]
                                    |split; [split; [reflexivity|exact H3]|]]].
  - exact (proj1 (proj2 (generate_lhs_outcome_is_that_of_R (R_exits 3) (-4) 10 1
                           empty_world)) H1).
  - exact (proj1 (proj2 (proj2 (generate_lhs_outcome_is_that_of_R
                                  (R_prints [[1]; [1; 2]]%Q) 2 2 1 empty_world)))
             eq_refl H2).
  - exact (proj2 (proj2 (proj2 (generate_lhs_outcome_is_that_of_R
                                  (R_constant (1 # 2)) 2 3 1 empty_world)))
             eq_refl H3).
Defined.

Lemma range_manifest_round_trip_witness :
  exists w1 d,
    (Design.__init__ (R_constant (1 # 2)) ("Pb", "Pb", 2760%Z) 2 false None
       empty_world = (w1, Ok d)
     /\ forall q, In q (Design.min d ++ Design.max d)%list ->
          parse_show (show (Np.Finite q)) = Some q
          /\ clean (show (Np.Finite q)) = true)
    /\ exists w2,
         Design.write_files show d "inputs" w1 = (w2, Ok tt)
         /\ let text := content (files w2) (design_ranges_path d "inputs") in
            hd_error (lines text) = Some "param,min,max"
            /\ List.length (tl (lines text)) = List.length (Design.keys d)
            /\ map (@hd_error string) (tl (read_table text))
               = map Some (Design.keys d)
            /\ read_ranges parse_show text
               = Some (combine (Design.keys d) (Design.range d)).
Proof.
  do 2 eexists.
  assert (Hfmt : forall q,
             In q (map fst sampled_ranges ++ map snd sampled_ranges)%list ->
             parse_show (show (Np.Finite q)) = Some q
             /\ clean (show (Np.Finite q)) = true).
  { intros q Hin. cbn in Hin.
    repeat (destruct Hin as [<-|Hin]; [split; vm_compute; reflexivity|]).
    contradiction. }
  split; [split; [vm_compute; reflexivity | exact Hfmt]|].
  eapply (range_manifest_round_trip (R_constant (1 # 2)) show parse_show
            "Pb" "Pb" 2760%Z 2 false None "inputs" empty_world);
    [vm_compute; reflexivity | exact Hfmt].
Defined.

(** C9, as stated, fails: with a sample of zeros, [zeta_over_s_max] is 0 at
    both points and nothing is raised.  Both files are written in full, and
    the width is [inf] in the calls and in the table. *)
Lemma zero_zeta_over_s_max_does_not_raise :
  let run := main_step (R_constant 0) show 2 "inputs" ("Pb", "Pb", 2760%Z) false
               empty_world in
  let table := read_table (content (files (fst run))
                             "inputs/design_points_main_PbPb-2760.dat") in
  snd run = Ok tt
  /\ map ModuleInputs.zeta_over_s_width_in_GeV (module_inputs (fst run))
     = [VFloat (Np.Inf false); VFloat (Np.Inf false)]
  /\ map (fun row => last row "") table
     = ["zeta_over_s_lambda_asymm"; "inf"; "inf"]
  /\ List.length (lines (content (files (fst run))
                           "inputs/design_ranges_main_PbPb-2760.dat")) = 11%nat.
Proof. vm_compute. repeat split. Qed.

Lemma zero_divisor_gives_inf_witness :
  exists w1 d,
    Design.__init__ (R_constant 0) ("Pb", "Pb", 2760%Z) 1 false None empty_world
    = (w1, Ok d)
    /\ exists w2 calls rows,
         Design.write_files show d "inputs" w1 = (w2, Ok tt)
         /\ module_inputs w2 = (module_inputs w1 ++ calls)%list
         /\ content (files w2) (design_points_path d "inputs")
            = cat (map csv_line (("idx" :: Design.keys d) :: rows))
         /\ Forall2 (fun ps c =>
                       forall u6 u8,
                         List.length (snd ps) = 10%nat ->
                         nth_error (snd ps) 6 = Some u6 ->
                         nth_error (snd ps) 8 = Some u8 ->
                         (u6 == 0)%Q -> (0 <= u8)%Q ->
                         ModuleInputs.design_point_id c = fst ps
                         /\ (exists zmax,
                               ModuleInputs.zeta_over_s_max c
                               = VFloat (Np.Finite zmax)
                               /\ (zmax == 0)%Q)
                         /\ ModuleInputs.zeta_over_s_width_in_GeV c
                            = VFloat (Np.Inf false))
                    (combine (Design.points d) [repeat 0%Q 10]) calls
         /\ Forall2 (fun ps fields =>
                       forall u6 u8,
                         List.length (snd ps) = 10%nat ->
                         nth_error (snd ps) 6 = Some u6 ->
                         nth_error (snd ps) 8 = Some u8 ->
                         (u6 == 0)%Q -> (0 <= u8)%Q ->
                         hd_error fields = Some (fst ps)
                         /\ List.length fields = 13%nat
                         /\ last fields "" = show (Np.Inf false))
                    (combine (Design.points d) [repeat 0%Q 10]) rows.
Proof.
  do 2 eexists. split; [vm_compute; reflexivity|].
  eapply (zero_divisor_gives_inf (R_constant 0) show "Pb" "Pb" 2760%Z 1 false None
            "inputs" empty_world).
  vm_compute. reflexivity.
Defined.

Lemma module_inputs_target_is_projectile_witness :
  exists w1 d,
    Design.__init__ (R_constant (1 # 2)) ("p", "Pb", 2760%Z) 2 false None
      empty_world = (w1, Ok d)
    /\ exists w2 calls,
         Design.write_files show d "inputs" w1 = (w2, Ok tt)
         /\ module_inputs w2 = (module_inputs w1 ++ calls)%list
         /\ List.length calls = Nat.min (Z.to_nat 2) 2
         /\ map ModuleInputs.design_point_id calls
            = firstn 2 (map str_int (Py.range 2))
         /\ Forall (fun c => ModuleInputs.projectile c = "p"
                             /\ ModuleInputs.target c = "p") calls
         /\ Design.target d = "Pb"
         /\ forall t w0,
              Design.write_files show (with_target d t) "inputs" w0
              = Design.write_files show d "inputs" w0.
Proof.
  do 2 eexists. split; [vm_compute; reflexivity|].
  eapply (module_inputs_target_is_projectile (R_constant (1 # 2)) show "p" "Pb"
            2760%Z 2 false None "inputs" empty_world).
  vm_compute. reflexivity.
Defined.

(** * Beyond the claims *)

(** ** The outcome of the constructor *)

Lemma map_rows_ok (f : list Q -> result (list Q)) (g : list Q -> list Q) rows :
  (forall r, In r rows -> f r = Ok (g r)) ->
  Np.map_rows f rows = Ok (map g rows).
Proof.
  induction rows as [|r rows IH]; intros H; [reflexivity|].
  cbn [Np.map_rows map]. rewrite (H r (or_introl eq_refl)).
  rewrite IH by (intros; apply H; now right). reflexivity.
Qed.

Lemma scale_one_ok (r : list Q) :
  List.length r = 10%nat \/ List.length r = 1%nat ->
  exists r',
    Np.zip_with Qmult (map (fun p => (snd p - fst p)%Q) sampled_ranges) r = Ok r'
    /\ Np.zip_with Qplus (map fst sampled_ranges) r'
       = Ok (scale_row sampled_ranges (spread 10 r)).
Proof.
  intros [H|H].
  - destruct (length_10_inv r H) as (a0&a1&a2&a3&a4&a5&a6&a7&a8&a9&->).
    eexists. split; reflexivity.
  - destruct r as [|u [|? ?]]; try discriminate H.
    eexists. split; reflexivity.
Qed.

Lemma all_of_length_Forall n m :
  all_of_length n m = true <-> Forall (fun r => List.length r = n) m.
Proof.
  unfold all_of_length. rewrite forallb_forall, Forall_forall.
  split; intros H r Hr; specialize (H r Hr); now apply Nat.eqb_eq.
Qed.

Lemma accepted_rows m :
  accepted m = true ->
  m <> [] /\ Forall (fun r => List.length r = 10%nat \/ List.length r = 1%nat) m
  /\ Np.array m = Ok (Np.Arr2 m).
Proof.
  destruct m as [|r rs]; [discriminate|]. unfold accepted. intros H.
  split; [discriminate|].
  apply orb_prop in H. destruct H as [H|H]; apply all_of_length_Forall in H.
  - split; [eapply Forall_impl; [|exact H]; cbn; auto|].
    unfold Np.array. inversion H as [|? ? Hr Hrs]; subst.
    replace (forallb _ rs) with true; [reflexivity|].
    symmetry. apply forallb_forall. intros r' Hr'. rewrite Forall_forall in Hrs.
    apply Nat.eqb_eq. rewrite Hr. now apply Hrs.
  - split; [eapply Forall_impl; [|exact H]; cbn; auto|].
    unfold Np.array. inversion H as [|? ? Hr Hrs]; subst.
    replace (forallb _ rs) with true; [reflexivity|].
    symmetry. apply forallb_forall. intros r' Hr'. rewrite Forall_forall in Hrs.
    apply Nat.eqb_eq. rewrite Hr. now apply Hrs.
Qed.

(** The constructor at the recognised beam energy, step by step. *)
Ltac unfold_init :=
  unfold Design.__init__;
  cbv beta iota delta [bind print lift]; rewrite norm_range_subscript;
  change (2760 =? 2760)%Z with true; cbv beta iota;
  change (Np.zip_with Qminus _ _)
    with (Ok (map (fun p => (snd p - fst p)%Q) sampled_ranges));
  cbv beta iota; unfold generate_lhs;
  change (Z.of_nat _) with 10%Z.

Lemma init_accepted run_R s0 s1 npoints validation seed w :
  let proc := run_R (List.length (R_runs w)) (seed_used validation seed)
                npoints 10%Z in
  fst proc = 0%Z -> accepted (snd proc) = true ->
  exists d,
    Design.__init__ run_R (s0, s1, 2760%Z) npoints validation seed w
    = (log_R_run (seed_used validation seed) npoints 10
         (printed s0 s1 2760 w), Ok d).
Proof.
  intros proc Hrc Hacc.
  destruct (accepted_rows _ Hacc) as (Hne & Hall & Harr).
  unfold_init.
  change (match seed with Some s => s | None => Design.default_seed validation end)
    with (seed_used validation seed).
  change (R_runs _) with (R_runs w). fold proc.
  rewrite Hrc. change (0 =? 0)%Z with true. cbv beta iota.
  rewrite Harr. cbv beta iota. unfold Np.vec_op.
  rewrite (map_rows_ok _ (fun r => match Np.zip_with Qmult
                                      (map (fun p => (snd p - fst p)%Q) sampled_ranges) r
                                    with Ok r' => r' | Raise _ => [] end)).
  2:{ intros r Hr. rewrite Forall_forall in Hall.
      destruct (scale_one_ok r (Hall r Hr)) as (r' & -> & _). reflexivity. }
  rewrite (map_rows_ok _ (fun r' => match Np.zip_with Qplus (map fst sampled_ranges) r'
                                    with Ok r'' => r'' | Raise _ => [] end)).
  2:{ intros r' Hr'. apply in_map_iff in Hr'. destruct Hr' as (r & <- & Hr).
      rewrite Forall_forall in Hall.
      destruct (scale_one_ok r (Hall r Hr)) as (r' & E1 & E2).
      rewrite E1. fold sampled_ranges. now rewrite E2. }
  eexists. reflexivity.
Qed.

Lemma zip_with_width_length (r r' : list Q) :
  Np.zip_with Qmult (map (fun p => (snd p - fst p)%Q) sampled_ranges) r = Ok r' ->
  List.length r = 10%nat \/ List.length r = 1%nat.
Proof.
  intros H1.
  destruct r as [|u0 r]; [discriminate H1|].
  destruct r as [|u1 r]; [now right|].
  do 8 (destruct r as [|? r]; [discriminate H1|]).
  destruct r as [|? r]; [now left | discriminate H1].
Qed.

Lemma array_uniform r rs a :
  Np.array (r :: rs) = Ok a ->
  Forall (fun r' => List.length r' = List.length r) (r :: rs).
Proof.
  unfold Np.array. destruct (forallb _ rs) eqn:E; [|discriminate]. intros _.
  constructor; [reflexivity|]. apply Forall_forall. intros r' Hr'.
  rewrite forallb_forall in E. now apply Nat.eqb_eq, E.
Qed.

Lemma init_rejected run_R s0 s1 npoints validation seed w :
  let proc := run_R (List.length (R_runs w)) (seed_used validation seed)
                npoints 10%Z in
  fst proc = 0%Z -> accepted (snd proc) = false ->
  Design.__init__ run_R (s0, s1, 2760%Z) npoints validation seed w
  = (log_R_run (seed_used validation seed) npoints 10 (printed s0 s1 2760 w),
     Raise ValueError).
Proof.
  intros proc Hrc Hacc.
  unfold_init.
  change (match seed with Some s => s | None => Design.default_seed validation end)
    with (seed_used validation seed).
  change (R_runs _) with (R_runs w). fold proc.
  rewrite Hrc. change (0 =? 0)%Z with true. cbv beta iota.
  destruct (Np.array (snd proc)) as [lhs|ex] eqn:Harr.
  2:{ now rewrite (array_raise _ _ Harr). }
  destruct (snd proc) as [|r rs] eqn:Hm.
  { injection Harr as <-. reflexivity. }
  pose proof (array_uniform _ _ _ Harr) as Huni.
  apply array_inv in Harr. destruct Harr as [[Hnil _]|[_ ->]]; [discriminate|].
  unfold Np.vec_op. cbn [Np.map_rows].
  destruct (Np.zip_with Qmult _ r) as [r'|ex] eqn:E.
  - exfalso. apply zip_with_width_length in E.
    unfold accepted in Hacc. apply orb_false_elim in Hacc. destruct Hacc as [H10 H1].
    destruct E as [E|E].
    + assert (all_of_length 10 (r :: rs) = true); [|congruence].
      apply all_of_length_Forall. eapply Forall_impl; [|exact Huni].
      cbn. intros; congruence.
    + assert (all_of_length 1 (r :: rs) = true); [|congruence].
      apply all_of_length_Forall. eapply Forall_impl; [|exact Huni].
      cbn. intros; congruence.
  - now rewrite (zip_with_raise _ _ _ _ E).
Qed.

Lemma init_R_failed run_R s0 s1 npoints validation seed w :
  let proc := run_R (List.length (R_runs w)) (seed_used validation seed)
                npoints 10%Z in
  fst proc <> 0%Z ->
  Design.__init__ run_R (s0, s1, 2760%Z) npoints validation seed w
  = (log_R_run (seed_used validation seed) npoints 10 (printed s0 s1 2760 w),
     Raise (CalledProcessError (fst proc) ["R"; "--slave"])).
Proof.
  intros proc Hrc.
  unfold_init.
  change (match seed with Some s => s | None => Design.default_seed validation end)
    with (seed_used validation seed).
  change (R_runs _) with (R_runs w). fold proc.
  destruct (Z.eqb_spec (fst proc) 0); [contradiction|]. reflexivity.
Qed.

(** ** Decimal ids *)

Lemma str_int_inj (a b : Z) : str_int a = str_int b -> a = b.
Proof.
  unfold str_int. intros H. apply DecimalZ.to_int_inj.
  assert (Hnn : forall z, Z.to_int z <> Decimal.Pos Decimal.Nil
                          /\ Z.to_int z <> Decimal.Neg Decimal.Nil).
  { intros [|p|p]; cbn; split; try discriminate;
      intros E; injection E as E; now apply DecimalPos.Unsigned.to_uint_nonnil in E. }
  apply (f_equal NilZero.int_of_string) in H.
  rewrite !NilZero.isi in H by apply Hnn. now injection H.
Qed.

Lemma NoDup_map_inj {A B} (f : A -> B) (l : list A) :
  (forall x y, f x = f y -> x = y) -> NoDup l -> NoDup (map f l).
Proof.
  intros Hf. induction 1 as [|x l Hx _ IH]; cbn; constructor; [|exact IH].
  intros Hin. apply in_map_iff in Hin. destruct Hin as (y & E & Hy).
  apply Hf in E. now subst.
Qed.

Lemma range_NoDup (n : Z) : NoDup (Py.range n).
Proof.
  unfold Py.range. apply NoDup_map_inj; [|apply seq_NoDup].
  intros x y. apply Nat2Z.inj.
Qed.

Lemma range_nth (n : Z) (i : nat) :
  (i < Z.to_nat n)%nat -> nth_error (Py.range n) i = Some (Z.of_nat i).
Proof.
  intros H. unfold Py.range. rewrite nth_error_map.
  rewrite nth_error_nth' with (d := O) by (now rewrite length_seq).
  now rewrite seq_nth.
Qed.

(** ** The constructor *)

Section Constructor.
Variable run_R : nat -> Z -> Z -> Z -> Z * list (list Q).

(** X1.  Whatever its outcome, the constructor opens no file, makes no
    directory and writes no module input: it prints two lines, the label
    and the name of the system, and runs R once when the beam energy is
    2760, not at all otherwise. *)
Theorem constructor_leaves_the_files_alone
    s0 s1 e npoints validation seed w :
  let w' := fst (Design.__init__ run_R (s0, s1, e) npoints validation seed w) in
  files w' = files w /\ dirs w' = dirs w /\ module_inputs w' = module_inputs w
  /\ stdout w' = app (stdout w) ["self.system = "; s0 ++ s1 ++ "-" ++ str_int e]
  /\ R_runs w'
     = if Z.eqb e 2760 then
         (R_runs w ++ [(seed_used validation seed, npoints, 10%Z)])%list
       else R_runs w.
Proof.
  cbv zeta.
  destruct (Design.__init__ run_R (s0, s1, e) npoints validation seed w)
    as [w' r] eqn:H.
  cbn [fst]. apply init_inv in H.
  destruct H as [(He & -> & _)|(-> & -> & _)].
  - apply Z.eqb_neq in He. rewrite He. cbn. rewrite <- app_assoc.
    repeat split; reflexivity.
  - cbn. rewrite <- app_assoc. repeat split; reflexivity.
Qed.

(** X2.  The ids of the design points are the decimal numbers
    [0 .. npoints - 1] in order ([str(i) for i in range(npoints)]): there
    are [npoints] of them (none for a negative count) and no two are
    equal. *)
Theorem design_points_are_numbered
    s0 s1 e npoints validation seed w w' d :
  Design.__init__ run_R (s0, s1, e) npoints validation seed w = (w', Ok d) ->
  List.length (Design.points d) = Z.to_nat npoints
  /\ NoDup (Design.points d)
  /\ forall i, (i < Z.to_nat npoints)%nat ->
       nth_error (Design.points d) i = Some (str_int (Z.of_nat i)).
Proof.
  intros H. built H B. rewrite (built_points B).
  split; [unfold Py.range; now rewrite !length_map, length_seq|].
  split.
  - apply NoDup_map_inj; [|apply range_NoDup].
    intros x y. apply str_int_inj.
  - intros i Hi. now rewrite nth_error_map, range_nth.
Qed.

(** X3.  At beam energy 2760 the outcome of the constructor is decided
    by the run of R: a non-zero exit status gives [CalledProcessError] with
    that status; status zero with a table that is empty, ragged, or of a
    width other than ten or one gives [ValueError]; status zero with some
    rows, all of ten columns or all of one, gives a design. *)
Theorem constructor_outcome s0 s1 npoints validation seed w :
  let proc := run_R (List.length (R_runs w)) (seed_used validation seed)
                npoints 10%Z in
  let run := Design.__init__ run_R (s0, s1, 2760%Z) npoints validation seed w in
  (fst proc <> 0%Z ->
   snd run = Raise (CalledProcessError (fst proc) ["R"; "--slave"]))
  /\ (fst proc = 0%Z -> accepted (snd proc) = false ->
      snd run = Raise ValueError)
  /\ (fst proc = 0%Z -> accepted (snd proc) = true -> exists d, snd run = Ok d).
Proof.
  intros proc run. unfold run. repeat split.
  - intros H. now rewrite init_R_failed.
  - intros H1 H2. now rewrite init_rejected.
  - intros H1 H2.
    destruct (init_accepted run_R s0 s1 npoints validation seed w H1 H2) as [d ->].
    now exists d.
Qed.

(** X4.  A constructed design is consistent: keys, ranges, minima and
    maxima all have [ndim] entries, the keys are distinct, and the design
    used as an array ([__array__]) is a table with one row per row printed
    by R, each of [ndim] values. *)
Theorem design_shape s0 s1 e npoints validation seed w w' d :
  Design.__init__ run_R (s0, s1, e) npoints validation seed w = (w', Ok d) ->
  let m := snd (run_R (List.length (R_runs w)) (seed_used validation seed)
                  npoints 10%Z) in
  List.length (Design.keys d) = Design.ndim d
  /\ List.length (Design.range d) = Design.ndim d
  /\ List.length (Design.min d) = Design.ndim d
  /\ List.length (Design.max d) = Design.ndim d
  /\ NoDup (Design.keys d)
  /\ exists rows,
       Design.__array__ d = Np.Arr2 rows
       /\ List.length rows = List.length m
       /\ Forall (fun row => List.length row = Design.ndim d) rows.
Proof.
  intros H m. built H B. fold m in B.
  rewrite (built_min B), (built_max B), !length_map.
  rewrite (built_keys B), (built_range B), (built_ndim B).
  repeat (split; [reflexivity|]).
  split.
  { cbn. repeat (constructor; [cbn; intuition discriminate|]). constructor. }
  unfold Design.__array__. rewrite (built_array B), (built_range B).
  eexists. split; [reflexivity|]. split; [apply length_map|].
  rewrite Forall_map. destruct (built_sample B) as [_ Hall].
  eapply Forall_impl; [|exact Hall]. intros r Hr. now apply scale_row_length.
Qed.

(** X5.  The constructor does not check the width of the sample: a row
    of a single number [u] is broadcast over the ten ranges and gives the
    row [min_j + (max_j - min_j) * u]. *)
Theorem one_column_sample_is_spread
    s0 s1 e npoints validation seed w w' d :
  Design.__init__ run_R (s0, s1, e) npoints validation seed w = (w', Ok d) ->
  let m := snd (run_R (List.length (R_runs w)) (seed_used validation seed)
                  npoints 10%Z) in
  forall i u,
    nth_error m i = Some [u] ->
    exists rows,
      Design.array d = Np.Arr2 rows
      /\ nth_error rows i
         = Some (map (fun p => (fst p + (snd p - fst p) * u)%Q) (Design.range d)).
Proof.
  intros H m i u Hi. built H B. fold m in B, Hi.
  eexists. split; [apply (built_array B)|].
  rewrite nth_error_map, Hi. cbn [option_map spread].
  now rewrite (built_range B).
Qed.

End Constructor.

(** ** The files of a design, further *)

Lemma setitem_same {V} (d : dict V) k v :
  getitem d k = Ok v -> setitem d k v = d.
Proof.
  induction d as [|[k' v'] d IH]; cbn; [discriminate|].
  destruct (String.eqb k' k); [now intros [= ->]|].
  intros H. now rewrite IH.
Qed.

Lemma mkdir_dirs_again ds p : mkdir_dirs (mkdir_dirs ds p) p = mkdir_dirs ds p.
Proof.
  unfold mkdir_dirs. destruct (existsb (String.eqb p) ds) eqn:E; [now rewrite E|].
  rewrite existsb_app. cbn. now rewrite String.eqb_refl, orb_true_r.
Qed.

Section Files.
Variable run_R : nat -> Z -> Z -> Z -> Z * list (list Q).
Variable str_float : Np.float64 -> string.

(** X6.  [write_files] zips the ids with the rows of the design array, so
    it handles as many points as the shorter of the two: with [npoints] ids
    and a sample of [len(m)] rows it calls [write_module_inputs]
    [min(npoints, len(m))] times and writes as many rows under the
    header. *)
Theorem points_beyond_the_sample_are_dropped
    s0 s1 e npoints validation seed basedir w w1 d :
  Design.__init__ run_R (s0, s1, e) npoints validation seed w = (w1, Ok d) ->
  let m := snd (run_R (List.length (R_runs w)) (seed_used validation seed)
                  npoints 10%Z) in
  let k := Nat.min (Z.to_nat npoints) (List.length m) in
  exists w2 rows,
    Design.write_files str_float d basedir w1 = (w2, Ok tt)
    /\ List.length (module_inputs w2) = (List.length (module_inputs w1) + k)%nat
    /\ content (files w2) (design_points_path d basedir)
       = cat (map csv_line (("idx" :: Design.keys d) :: rows))
    /\ List.length rows = k.
Proof.
  intros H m k. built H B. fold m in B.
  rewrite (write_files_built _ _ _ _ _ _ _ _ _ _ B).
  do 2 eexists. split; [reflexivity|]. cbn [module_inputs files].
  assert (Hk : List.length (combine (Design.points d) m) = k).
  { rewrite length_combine, (built_points B). unfold Py.range.
    now rewrite !length_map, length_seq. }
  split.
  { rewrite length_app. f_equal.
    pose proof (write_files_calls _ _ _ _ _ _ _ (outdir_of d basedir) B) as HF.
    apply Forall2_length in HF. now rewrite <- HF. }
  split.
  { rewrite content_design_points.
    exact (design_points_text_csv _ _ _ _ _ _ _ _ B). }
  now rewrite length_map.
Qed.

(** X7.  The row of a design point holds thirteen fields: the id, the
    first eight sampled values, the tenth, the projectile, the cross section
    6.4 and the derived width.  The ninth sampled value
    ([zeta_over_s_area_fourth]) is not written. *)
Theorem design_points_table_layout
    s0 s1 e npoints validation seed basedir w w1 d :
  Design.__init__ run_R (s0, s1, e) npoints validation seed w = (w1, Ok d) ->
  let str q := str_float (Np.Finite q) in
  exists w2 rows,
    Design.write_files str_float d basedir w1 = (w2, Ok tt)
    /\ content (files w2) (design_points_path d basedir)
       = cat (map csv_line (("idx" :: Design.keys d) :: rows))
    /\ Forall2 (fun pr fields =>
                  exists a0 a1 a2 a3 a4 a5 a6 a7 a8 a9,
                    snd pr = Some [a0; a1; a2; a3; a4; a5; a6; a7; a8; a9]
                    /\ fields
                       = [ fst pr; str a0; str a1; str a2; str a3; str a4;
                           str a5; str a6; str a7; str a9; s0; str 6.4;
                           str_float (derived_width a8 a6) ])
               (combine (Design.points d) (Design.iter_array (Design.array d)))
               rows.
Proof.
  intros H str. built H B.
  rewrite (write_files_built _ _ _ _ _ _ _ _ _ _ B).
  do 2 eexists. split; [reflexivity|]. cbn [files].
  split.
  { rewrite content_design_points.
    exact (design_points_text_csv _ _ _ _ _ _ _ _ B). }
  rewrite (built_array B). cbn [Design.iter_array].
  rewrite (map_map _ Some), combine_map_r.
  apply Forall2_map_same. intros [p r] Hin. cbn [fst snd].
  apply in_combine_r in Hin. destruct (built_sample B) as [_ Hall].
  rewrite Forall_forall in Hall.
  pose proof (scale_row_length r (Hall r Hin)) as Hlen.
  unfold point_fields. cbn [fst snd]. rewrite (built_range B).
  destruct (length_10_inv _ Hlen) as (a0&a1&a2&a3&a4&a5&a6&a7&a8&a9&->).
  exists a0, a1, a2, a3, a4, a5, a6, a7, a8, a9. split; reflexivity.
Qed.

(** X8.  [write_module_inputs] is called once per design point that has a
    row in the design array, with the directory [basedir / type / system] as
    [pathlib] joins it, the id of the point, energy 2760, cross section 6.4,
    and each value of the row under its parameter, the width being
    [2/3.141592 * area_fourth**4 / zeta_over_s_max]. *)
Theorem module_inputs_take_the_sampled_values
    s0 s1 e npoints validation seed basedir w w1 d :
  Design.__init__ run_R (s0, s1, e) npoints validation seed w = (w1, Ok d) ->
  let m := snd (run_R (List.length (R_runs w)) (seed_used validation seed)
                  npoints 10%Z) in
  exists w2 calls rows,
    Design.write_files str_float d basedir w1 = (w2, Ok tt)
    /\ module_inputs w2 = (module_inputs w1 ++ calls)%list
    /\ Design.array d = Np.Arr2 rows
    /\ List.length rows = List.length m
    /\ List.length calls = Nat.min (Z.to_nat npoints) (List.length m)
    /\ Forall2 (fun pr c =>
                  exists a0 a1 a2 a3 a4 a5 a6 a7 a8 a9,
                    snd pr = [a0; a1; a2; a3; a4; a5; a6; a7; a8; a9]
                    /\ c = {| ModuleInputs.outdir :=
                                truediv (truediv basedir (Design.type d))
                                        (Design.system d);
                              ModuleInputs.design_point_id := fst pr;
                              ModuleInputs.projectile := s0;
                              ModuleInputs.target := s0;
                              ModuleInputs.sqrts := 2760%Z;
                              ModuleInputs.inel_nucleon_cross_section :=
                                VFloat (Np.Finite 6.4);
                              ModuleInputs.trento_normalization := VFloat (Np.Finite a0);
                              ModuleInputs.trento_fluctuation_k := VFloat (Np.Finite a1);
                              ModuleInputs.trento_nucleon_width := VFloat (Np.Finite a2);
                              ModuleInputs.tau_R := VFloat (Np.Finite a3);
                              ModuleInputs.alpha := VFloat (Np.Finite a4);
                              ModuleInputs.eta_over_s_at_kink := VFloat (Np.Finite a5);
                              ModuleInputs.zeta_over_s_max := VFloat (Np.Finite a6);
                              ModuleInputs.zeta_over_s_width_in_GeV :=
                                VFloat (Np.div (Np.mul (Np.Finite (2 / 3.141592))
                                                  (Np.pow (Np.Finite a8) 4))
                                               (Np.Finite a6));
                              ModuleInputs.zeta_over_s_T_peak_in_GeV :=
                                VFloat (Np.Finite a7);
                              ModuleInputs.zeta_over_s_lambda_asymm :=
                                VFloat (Np.Finite a9) |})
               (combine (Design.points d) rows)
               calls.
Proof.
  intros H m. built H B. fold m in B.
  rewrite (write_files_built _ _ _ _ _ _ _ _ _ _ B).
  do 3 eexists. split; [reflexivity|]. cbn [module_inputs]. split; [reflexivity|].
  split; [apply (built_array B)|].
  split; [apply length_map|].
  pose proof (write_files_calls _ _ _ _ _ _ _ (outdir_of d basedir) B) as HF.
  split.
  { rewrite <- (Forall2_length HF), (built_points B).
    apply length_combine_range. }
  apply (Forall2_combine_map _
           (fun r => scale_row (Design.range d) (spread 10 r))) in HF.
  eapply Forall2_impl; [|exact HF].
  intros pr c (ps & -> & Hlen & Hc). cbn [fst snd] in *.
  destruct (length_10_inv _ Hlen) as (a0&a1&a2&a3&a4&a5&a6&a7&a8&a9&E).
  rewrite E in Hc. injection Hc as <-.
  exists a0, a1, a2, a3, a4, a5, a6, a7, a8, a9.
  rewrite E, (built_projectiles B), (proj1 (built_energy B)). split; reflexivity.
Qed.

(** X9.  For a sample row of the unit cube whose [zeta_over_s_max] entry is
    at least one millionth, the width passed to [write_module_inputs] is a
    finite number [width] with [0 < width <= 130000] and
    [width * zeta_over_s_max = 2/3.141592 * area_fourth**4], the two
    parameters being the affine images of the entries.  (The bound keeps the
    quotient far from the largest double; rounding is not modelled.) *)
Theorem width_is_positive_away_from_zero
    s0 s1 e npoints validation seed basedir w w1 d :
  Design.__init__ run_R (s0, s1, e) npoints validation seed w = (w1, Ok d) ->
  let m := snd (run_R (List.length (R_runs w)) (seed_used validation seed)
                  npoints 10%Z) in
  exists w2 calls,
    Design.write_files str_float d basedir w1 = (w2, Ok tt)
    /\ module_inputs w2 = (module_inputs w1 ++ calls)%list
    /\ Forall2 (fun ps c =>
                  forall u6 u8,
                    List.length (snd ps) = 10%nat ->
                    nth_error (snd ps) 6 = Some u6 ->
                    nth_error (snd ps) 8 = Some u8 ->
                    (1 # 1000000 <= u6)%Q -> (u6 <= 1)%Q ->
                    (0 <= u8)%Q -> (u8 <= 1)%Q ->
                    let zmax := (0.0 + (0.3 - 0.0) * u6)%Q in
                    let area_fourth :=
                      (Design.area_fourth_min
                       + (Design.area_fourth_max - Design.area_fourth_min) * u8)%Q in
                    exists width,
                      ModuleInputs.zeta_over_s_width_in_GeV c
                      = VFloat (Np.Finite width)
                      /\ (0 < width)%Q
                      /\ (width <= 130000)%Q
                      /\ (width * zmax == 2 / 3.141592 * area_fourth ^ 4)%Q)
               (combine (Design.points d) m) calls.
Proof.
  intros H m. built H B. fold m in B.
  rewrite (write_files_built _ _ _ _ _ _ _ _ _ _ B).
  do 2 eexists. split; [reflexivity|]. cbn [module_inputs]. split; [reflexivity|].
  pose proof (write_files_calls _ _ _ _ _ _ _ (outdir_of d basedir) B) as HF.
  eapply Forall2_impl; [|exact HF].
  intros [p r] c [_ Hc] u6 u8 Hlen H6 H8 Hu6 Hu6' Hu8 Hu8'. cbn [fst snd] in *.
  rewrite (built_range B) in Hc.
  destruct (length_10_inv _ Hlen) as (a0&a1&a2&a3&a4&a5&a6&a7&a8&a9&->).
  injection H6 as ->. injection H8 as ->.
  injection Hc as <-. cbn [ModuleInputs.zeta_over_s_width_in_GeV].
  set (zmax := (0.0 + (0.3 - 0.0) * u6)%Q).
  set (area := (Design.area_fourth_min
                + (Design.area_fourth_max - Design.area_fourth_min) * u8)%Q).
  assert (Hz : (3 # 10000000 <= zmax)%Q) by (unfold zmax; nra).
  assert (Ha : (0 < area)%Q).
  { unfold area, Design.area_fourth_min, Design.area_fourth_max. nra. }
  assert (Ha' : (area <= 495 # 1000)%Q).
  { unfold area, Design.area_fourth_min, Design.area_fourth_max. nra. }
  assert (Hsq : (0 < area * area)%Q) by nra.
  assert (Hsq' : (area * area <= 246 # 1000)%Q) by nra.
  assert (H4 : (0 < (area * area) * (area * area))%Q) by nra.
  assert (H4' : ((area * area) * (area * area) <= 61 # 1000)%Q) by nra.
  assert (E : (2 / 3.141592 * (area * (area * (area * (area * 1))))
               == 2 / 3.141592 * ((area * area) * (area * area)))%Q) by ring.
  assert (Hc2 : (0 < 2 / 3.141592)%Q) by reflexivity.
  assert (Hc2' : (2 / 3.141592 <= 637 # 1000)%Q) by (intro X; discriminate X).
  assert (Hnum : (0 < 2 / 3.141592 * (area * (area * (area * (area * 1)))))%Q).
  { rewrite E. nra. }
  assert (Hnum' : (2 / 3.141592 * (area * (area * (area * (area * 1))))
                   <= 39 # 1000)%Q).
  { rewrite E. nra. }
  unfold derived_width. cbn [Np.pow Np.mul Np.div]. fold zmax area.
  rewrite (Qzero_false zmax) by lra.
  eexists. split; [reflexivity|]. split; [|split].
  - apply Qlt_shift_div_l; [lra|]. now rewrite Qmult_0_l.
  - apply Qle_shift_div_r; [lra|]. nra.
  - field_simplify_eq; [|lra]. ring.
Qed.

(** X10.  [write_files] makes the directory [basedir / type / system], as
    [pathlib] joins it, and keeps the directories that were there; when it
    returns, the design-point table and the range table of the design exist
    in [basedir], under the names that [os.path.join] gives them. *)
Theorem write_files_makes_the_directory_and_the_tables
    s0 s1 e npoints validation seed basedir w w1 d :
  Design.__init__ run_R (s0, s1, e) npoints validation seed w = (w1, Ok d) ->
  let type := if validation then "validation" else "main" in
  let system := s0 ++ s1 ++ "-" ++ str_int e in
  exists w2,
    Design.write_files str_float d basedir w1 = (w2, Ok tt)
    /\ In (truediv (truediv basedir type) system) (dirs w2)
    /\ incl (dirs w1) (dirs w2)
    /\ (exists t, getitem (files w2)
                    (join basedir ("design_points_" ++ type ++ "_" ++ system
                                   ++ ".dat")) = Ok t)
    /\ (exists t, getitem (files w2)
                    (join basedir ("design_ranges_" ++ type ++ "_" ++ system
                                   ++ ".dat")) = Ok t).
Proof.
  intros H type system. built H B.
  rewrite (write_files_built _ _ _ _ _ _ _ _ _ _ B).
  eexists. split; [reflexivity|]. cbn [files dirs].
  assert (Ho : outdir_of d basedir = truediv (truediv basedir type) system).
  { unfold outdir_of. now rewrite (built_type B), (built_system B). }
  assert (Hp : design_points_path d basedir
               = join basedir ("design_points_" ++ type ++ "_" ++ system ++ ".dat")).
  { unfold design_points_path. now rewrite (built_type B), (built_system B). }
  assert (Hr : design_ranges_path d basedir
               = join basedir ("design_ranges_" ++ type ++ "_" ++ system ++ ".dat")).
  { unfold design_ranges_path. now rewrite (built_type B), (built_system B). }
  rewrite <- Ho, <- Hp, <- Hr.
  assert (Hd : In (outdir_of d basedir) (mkdir_dirs (dirs w1) (outdir_of d basedir))
               /\ incl (dirs w1) (mkdir_dirs (dirs w1) (outdir_of d basedir))).
  { unfold mkdir_dirs.
    destruct (existsb (String.eqb (outdir_of d basedir)) (dirs w1)) eqn:E.
    - split; [|apply incl_refl].
      apply existsb_exists in E. destruct E as (x & Hx & Heq).
      apply String.eqb_eq in Heq. now subst.
    - split; [apply in_or_app; right; now left | apply incl_appl, incl_refl]. }
  split; [exact (proj1 Hd)|]. split; [exact (proj2 Hd)|].
  split.
  - eexists. rewrite getitem_setitem_other by apply design_paths_differ.
    apply getitem_setitem.
  - eexists. apply getitem_setitem.
Qed.

(** X11.  Writing the files of a design a second time leaves the same
    files with the same contents (they are opened with mode [w]) and the
    same directories ([exist_ok=True]), and calls [write_module_inputs]
    again with the same arguments. *)
Theorem write_files_twice_overwrites
    s0 s1 e npoints validation seed basedir w w1 d :
  Design.__init__ run_R (s0, s1, e) npoints validation seed w = (w1, Ok d) ->
  exists w2 w3 calls,
    Design.write_files str_float d basedir w1 = (w2, Ok tt)
    /\ Design.write_files str_float d basedir w2 = (w3, Ok tt)
    /\ files w3 = files w2 /\ dirs w3 = dirs w2
    /\ module_inputs w2 = (module_inputs w1 ++ calls)%list
    /\ module_inputs w3 = (module_inputs w2 ++ calls)%list.
Proof.
  intros H. built H B.
  rewrite (write_files_built _ _ _ _ _ _ _ _ _ _ B).
  do 3 eexists. split; [reflexivity|].
  rewrite (write_files_built _ _ _ _ _ _ _ _ _ _ B).
  split; [reflexivity|]. cbn [files dirs module_inputs].
  split.
  { rewrite (setitem_same _ (design_points_path d basedir)).
    - now rewrite setitem_setitem.
    - rewrite getitem_setitem_other by apply design_paths_differ.
      apply getitem_setitem. }
  split; [apply mkdir_dirs_again|]. split; reflexivity.
Qed.

End Files.

(** ** Main and validation designs *)

Lemma types_paths_differ dm dv s0 s1 e n n' m m' basedir :
  Built s0 s1 e n false m dm -> Built s0 s1 e n' true m' dv ->
  design_points_path dv basedir <> design_points_path dm basedir
  /\ design_ranges_path dv basedir <> design_points_path dm basedir
  /\ design_points_path dv basedir <> design_ranges_path dm basedir
  /\ design_ranges_path dv basedir <> design_ranges_path dm basedir.
Proof.
  intros Bm Bv. unfold design_points_path, design_ranges_path.
  rewrite (built_type Bm), (built_type Bv).
  repeat split; intros H; apply join_inj_r in H; discriminate H.
Qed.

Section TwoDesigns.
Variable run_R : nat -> Z -> Z -> Z -> Z * list (list Q).
Variable str_float : Np.float64 -> string.

(** X12.  The main and the validation design of a system are written to
    different files: writing the validation design after the main one
    leaves both tables of the main design as they were. *)
Theorem validation_design_spares_the_main_one
    s0 s1 e n n' seed seed' w w' w1 w1' dm dv basedir wa :
  Design.__init__ run_R (s0, s1, e) n false seed w = (w1, Ok dm) ->
  Design.__init__ run_R (s0, s1, e) n' true seed' w' = (w1', Ok dv) ->
  exists wb wc,
    Design.write_files str_float dm basedir wa = (wb, Ok tt)
    /\ Design.write_files str_float dv basedir wb = (wc, Ok tt)
    /\ getitem (files wc) (design_points_path dm basedir)
       = getitem (files wb) (design_points_path dm basedir)
    /\ getitem (files wc) (design_ranges_path dm basedir)
       = getitem (files wb) (design_ranges_path dm basedir).
Proof.
  intros Hm Hv. built Hm Bm.
  apply init_inv in Hv.
  destruct Hv as [(_ & _ & Hv)|(_ & _ & _ & Bv)]; [discriminate|].
  destruct (types_paths_differ _ _ _ _ _ _ _ _ _ basedir Bm Bv)
    as (H1 & H2 & H3 & H4).
  rewrite (write_files_built _ _ _ _ _ _ _ _ _ _ Bm).
  do 2 eexists. split; [reflexivity|].
  rewrite (write_files_built _ _ _ _ _ _ _ _ _ _ Bv).
  split; [reflexivity|]. cbn [files].
  split.
  - now rewrite (getitem_setitem_other _ _ _ _ H2), (getitem_setitem_other _ _ _ _ H1).
  - now rewrite (getitem_setitem_other _ _ _ _ H4), (getitem_setitem_other _ _ _ _ H3).
Qed.

(** X13.  The range file has the same contents for every design, whatever
    the system, the number of points, the type or the sample: keys and
    ranges do not depend on them. *)
Theorem range_table_is_the_same_for_every_design
    s0 s1 e n validation seed w w1 d basedir
    s0' s1' e' n' validation' seed' w' w1' d' basedir' :
  Design.__init__ run_R (s0, s1, e) n validation seed w = (w1, Ok d) ->
  Design.__init__ run_R (s0', s1', e') n' validation' seed' w' = (w1', Ok d') ->
  exists w2 w2',
    Design.write_files str_float d basedir w1 = (w2, Ok tt)
    /\ Design.write_files str_float d' basedir' w1' = (w2', Ok tt)
    /\ content (files w2) (design_ranges_path d basedir)
       = content (files w2') (design_ranges_path d' basedir').
Proof.
  intros H H'. built H B. built H' B'.
  rewrite (write_files_built _ _ _ _ _ _ _ _ _ _ B),
    (write_files_built _ _ _ _ _ _ _ _ _ _ B').
  do 2 eexists. split; [reflexivity|]. split; [reflexivity|].
  cbn [files]. rewrite !content_setitem. unfold design_ranges_text.
  now rewrite (built_keys B), (built_keys B'), (built_range B), (built_range B').
Qed.

End TwoDesigns.

(** ** The script for R *)

Lemma str_int_free (c : ascii) (z : Z) :
  c = ")"%char \/ c = ","%char -> free c (str_int z) = true.
Proof.
  intros Hc. unfold str_int.
  assert (Hu : forall u, free c (NilEmpty.string_of_uint u) = true).
  { induction u; cbn; try reflexivity;
      destruct Hc as [-> | ->]; cbn; exact IHu. }
  assert (Hz : forall u, free c (NilZero.string_of_uint u) = true).
  { destruct u; try apply Hu. destruct Hc as [-> | ->]; reflexivity. }
  destruct (Z.to_int z) as [u|u]; cbn.
  - apply Hz.
  - rewrite Hz. destruct Hc as [-> | ->]; reflexivity.
Qed.

Lemma append_sep_inj (c : ascii) (x x' r r' : string) :
  free c x = true -> free c x' = true ->
  x ++ String c r = x' ++ String c r' -> x = x' /\ r = r'.
Proof.
  revert x'. induction x as [|a x IH]; intros [|a' x'] Hx Hx' H; cbn in *.
  - injection H as <-. auto.
  - injection H as <- _. now rewrite Ascii.eqb_refl in Hx'.
  - injection H as -> _. now rewrite Ascii.eqb_refl in Hx.
  - injection H as <- H. apply andb_prop in Hx, Hx'.
    destruct (IH x' (proj2 Hx) (proj2 Hx') H) as [-> ->]. auto.
Qed.

(** X14.  The script given to R names its three arguments unambiguously:
    two calls of [generate_lhs] send the same script only for the same seed,
    number of points and number of dimensions. *)
Theorem script_tells_the_arguments_apart (seed npoints ndim seed' npoints' ndim' : Z) :
  lhs_script seed npoints ndim = lhs_script seed' npoints' ndim' ->
  seed = seed' /\ npoints = npoints' /\ ndim = ndim'.
Proof.
  unfold lhs_script. intros H.
  apply append_inj_l in H. apply (append_inj_l "        library('lhs')") in H.
  apply append_inj_l in H. apply (append_inj_l "        set.seed(") in H.
  apply (append_sep_inj ")"%char) in H; try (apply str_int_free; now left).
  destruct H as [Hs H]. apply str_int_inj in Hs.
  apply append_inj_l in H. apply (append_inj_l "        write.table(maximinLHS(") in H.
  apply (append_sep_inj ","%char) in H; try (apply str_int_free; now right).
  destruct H as [Hn H]. apply str_int_inj in Hn.
  injection H as H.
  apply (append_sep_inj ")"%char) in H; try (apply str_int_free; now left).
  destruct H as [Hd _]. apply str_int_inj in Hd. auto.
Qed.

(** ** The campaign *)

Lemma for_each_app {A} (xs ys : list A) (body : A -> M unit) w :
  for_each (xs ++ ys)%list body w
  = match for_each xs body w with
    | (w1, Ok _) => for_each ys body w1
    | (w1, Raise ex) => (w1, Raise ex)
    end.
Proof.
  revert w. induction xs as [|x xs IH]; intros w; cbn [app for_each].
  - reflexivity.
  - unfold bind at 1 2. destruct (body x w) as [w1 [[]|ex]]; [apply IH | reflexivity].
Qed.

Lemma list_prod_app_l {A B} (xs ys : list A) (l : list B) :
  list_prod (xs ++ ys) l = (list_prod xs l ++ list_prod ys l)%list.
Proof.
  induction xs as [|x xs IH]; cbn [app list_prod]; [reflexivity|].
  now rewrite IH, app_assoc.
Qed.

Lemma getitem_setitem_still (d : dict string) k v p t :
  getitem d p = Ok t -> exists t', getitem (setitem d k v) p = Ok t'.
Proof.
  intros H. destruct (String.eqb_spec k p) as [->|Hne].
  - eexists. apply getitem_setitem.
  - exists t. now rewrite getitem_setitem_other.
Qed.

Section Campaign.
Variable run_R : nat -> Z -> Z -> Z -> Z * list (list Q).
Variable str_float : Np.float64 -> string.
Variable n_design_pts : Z.
Variable inputs_dir : string.

Lemma main_step_ok s0 s1 validation w :
  R_answers run_R n_design_pts ->
  exists w',
    main_step run_R str_float n_design_pts inputs_dir (s0, s1, 2760%Z) validation w
    = (w', Ok tt)
    /\ R_runs w'
       = (R_runs w ++ [(Design.default_seed validation, n_design_pts, 10%Z)])%list
    /\ (forall p t, getitem (files w) p = Ok t ->
          exists t', getitem (files w') p = Ok t')
    /\ (exists t, getitem (files w')
                    (table_path inputs_dir "points" validation (s0, s1, 2760%Z)) = Ok t)
    /\ (exists t, getitem (files w')
                    (table_path inputs_dir "ranges" validation (s0, s1, 2760%Z)) = Ok t).
Proof.
  intros HR.
  destruct (HR (List.length (R_runs w)) (seed_used validation None)) as [Hrc Hacc].
  destruct (init_accepted run_R s0 s1 n_design_pts validation None w Hrc Hacc)
    as [d Hd].
  unfold main_step, bind. rewrite Hd.
  apply init_inv in Hd. destruct Hd as [(_ & _ & Hd)|(_ & _ & _ & B)]; [discriminate|].
  rewrite (write_files_built _ _ _ _ _ _ _ _ _ _ B).
  eexists. split; [reflexivity|]. cbn [R_runs files log_R_run].
  assert (Hf : files (printed s0 s1 2760 w) = files w) by reflexivity.
  rewrite Hf.
  assert (Hp : design_points_path d inputs_dir
               = table_path inputs_dir "points" validation (s0, s1, 2760%Z)).
  { unfold design_points_path, table_path.
    now rewrite (built_type B), (built_system B). }
  assert (Hr : design_ranges_path d inputs_dir
               = table_path inputs_dir "ranges" validation (s0, s1, 2760%Z)).
  { unfold design_ranges_path, table_path.
    now rewrite (built_type B), (built_system B). }
  rewrite Hp, Hr.
  split; [reflexivity|]. split; [|split].
  - intros p t Ht.
    destruct (getitem_setitem_still _
                (table_path inputs_dir "points" validation (s0, s1, 2760%Z))
                (design_points_text str_float d) _ _ Ht) as [t1 Ht1].
    eapply getitem_setitem_still, Ht1.
  - eapply getitem_setitem_still, getitem_setitem.
  - eexists. apply getitem_setitem.
Qed.

Lemma main_ok systems w :
  R_answers run_R n_design_pts ->
  Forall (fun s : string * string * Z => snd s = 2760%Z) systems ->
  exists w',
    main run_R str_float n_design_pts systems inputs_dir w = (w', Ok tt)
    /\ R_runs w' = (R_runs w ++ campaign_runs n_design_pts systems)%list
    /\ (forall p t, getitem (files w) p = Ok t ->
          exists t', getitem (files w') p = Ok t')
    /\ (forall s validation, In s systems ->
          (exists t, getitem (files w')
                       (table_path inputs_dir "points" validation s) = Ok t)
          /\ (exists t, getitem (files w')
                          (table_path inputs_dir "ranges" validation s) = Ok t)).
Proof.
  intros HR Hall. revert w.
  induction Hall as [|[[s0 s1] e] systems He _ IH]; intros w.
  - exists w. cbn. rewrite app_nil_r.
    split; [reflexivity|]. split; [reflexivity|]. split; [eauto|].
    intros ? ? [].
  - cbn [snd] in He. subst e.
    destruct (main_step_ok s0 s1 false w HR) as (w1 & E1 & R1 & K1 & P1 & Q1).
    destruct (main_step_ok s0 s1 true w1 HR) as (w2 & E2 & R2 & K2 & P2 & Q2).
    destruct (IH w2) as (w3 & E3 & R3 & K3 & A3).
    exists w3. unfold main in *. cbn [list_prod map app for_each fst snd].
    unfold bind at 1. cbn [fst snd]. rewrite E1.
    unfold bind at 1. cbn [fst snd]. rewrite E2.
    split; [exact E3|]. split; [|split].
    + rewrite R3, R2, R1. cbn [campaign_runs flat_map].
      now rewrite <- !app_assoc.
    + intros p t Ht. destruct (K1 _ _ Ht) as [t1 Ht1].
      destruct (K2 _ _ Ht1) as [t2 Ht2]. eapply K3, Ht2.
    + intros s validation [<-|Hin]; [|now apply A3].
      destruct validation.
      * destruct P2 as [t Ht], Q2 as [t' Ht']. split; eapply K3; eassumption.
      * destruct P1 as [t Ht], Q1 as [t' Ht'].
        destruct (K2 _ _ Ht) as [u Hu], (K2 _ _ Ht') as [u' Hu'].
        split; eapply K3; eassumption.
Qed.

(** X15.  When every system has beam energy 2760 and R answers each run
    with an acceptable table, [main] returns; R has been run twice per
    system, first with the seed of the main design and then with that of the
    validation design, in the order of the systems; and the four tables of
    each system exist. *)
Theorem main_writes_every_design systems w :
  R_answers run_R n_design_pts ->
  Forall (fun s : string * string * Z => snd s = 2760%Z) systems ->
  exists w',
    main run_R str_float n_design_pts systems inputs_dir w = (w', Ok tt)
    /\ R_runs w' = (R_runs w ++ campaign_runs n_design_pts systems)%list
    /\ forall s validation, In s systems ->
         (exists t, getitem (files w')
                      (table_path inputs_dir "points" validation s) = Ok t)
         /\ (exists t, getitem (files w')
                         (table_path inputs_dir "ranges" validation s) = Ok t).
Proof.
  intros HR Hall. destruct (main_ok systems w HR Hall) as (w' & E & R & _ & A).
  exists w'. auto.
Qed.

(** X16.  [main] stops at the first system of unknown beam energy: it
    raises [KeyError] with that energy and leaves what the systems before it
    left, plus the two lines printed by the constructor; the systems after
    it are not visited (R is not run for them and nothing is written). *)
Theorem main_stops_at_an_unknown_energy good s0 s1 e rest w w1 :
  main run_R str_float n_design_pts good inputs_dir w = (w1, Ok tt) ->
  e <> 2760%Z ->
  exists w',
    main run_R str_float n_design_pts (good ++ (s0, s1, e) :: rest) inputs_dir w
    = (w', Raise (KeyError (KInt e)))
    /\ files w' = files w1 /\ dirs w' = dirs w1
    /\ module_inputs w' = module_inputs w1 /\ R_runs w' = R_runs w1
    /\ stdout w' = app (stdout w1) ["self.system = "; s0 ++ s1 ++ "-" ++ str_int e].
Proof.
  intros Hgood He. unfold main in *.
  rewrite list_prod_app_l, for_each_app, Hgood.
  cbn [list_prod map app for_each fst snd]. unfold bind at 1.
  unfold main_step at 1. unfold bind at 1.
  rewrite (init_unknown_energy run_R s0 s1 e n_design_pts false None w1 He).
  eexists. split; [reflexivity|]. cbn. rewrite <- app_assoc.
  repeat split; reflexivity.
Qed.

End Campaign.

(** ** Worked instances *)

Lemma design_points_are_numbered_witness :
  exists w' d,
    Design.__init__ (R_constant (1 # 2)) ("Pb", "Pb", 2760%Z) 3 false None
      empty_world = (w', Ok d)
    /\ List.length (Design.points d) = Z.to_nat 3
    /\ NoDup (Design.points d)
    /\ forall i, (i < Z.to_nat 3)%nat ->
         nth_error (Design.points d) i = Some (str_int (Z.of_nat i)).
Proof.
  do 2 eexists. split; [vm_compute; reflexivity|].
  eapply (design_points_are_numbered (R_constant (1 # 2)) "Pb" "Pb" 2760 3
            false None empty_world).
  vm_compute. reflexivity.
Defined.

Lemma constructor_outcome_witness :
  snd (Design.__init__ (R_exits 1) ("Pb", "Pb", 2760%Z) 2 false None empty_world)
  = Raise (CalledProcessError 1 ["R"; "--slave"])
  /\ snd (Design.__init__ (R_exits 0) ("Pb", "Pb", 2760%Z) 2 false None empty_world)
     = Raise ValueError
  /\ exists d,
       snd (Design.__init__ (R_constant (1 # 2)) ("Pb", "Pb", 2760%Z) 2 false None
              empty_world) = Ok d.
Proof.
  split; [|split].
  - apply (proj1 (constructor_outcome (R_exits 1) "Pb" "Pb" 2 false None
                    empty_world)).
    vm_compute. discriminate.
  - apply (proj1 (proj2 (constructor_outcome (R_exits 0) "Pb" "Pb" 2 false None
                           empty_world))); reflexivity.
  - apply (proj2 (proj2 (constructor_outcome (R_constant (1 # 2)) "Pb" "Pb" 2
                           false None empty_world))); reflexivity.
Defined.

Lemma design_shape_witness :
  exists w' d,
    Design.__init__ (R_constant (1 # 2)) ("Pb", "Pb", 2760%Z) 2 false None
      empty_world = (w', Ok d)
    /\ List.length (Design.keys d) = Design.ndim d
    /\ List.length (Design.range d) = Design.ndim d
    /\ List.length (Design.min d) = Design.ndim d
    /\ List.length (Design.max d) = Design.ndim d
    /\ NoDup (Design.keys d)
    /\ exists rows,
         Design.__array__ d = Np.Arr2 rows
         /\ List.length rows = 2%nat
         /\ Forall (fun row => List.length row = Design.ndim d) rows.
Proof.
  do 2 eexists. split; [vm_compute; reflexivity|].
  eapply (design_shape (R_constant (1 # 2)) "Pb" "Pb" 2760 2 false None empty_world).
  vm_compute. reflexivity.
Defined.

Lemma one_column_sample_is_spread_witness :
  exists w' d,
    Design.__init__ (R_prints [[1 # 2]; [1 # 4]]) ("Pb", "Pb", 2760%Z) 2 false None
      empty_world = (w', Ok d)
    /\ nth_error [[1 # 2]; [1 # 4]] 1 = Some [1 # 4]
    /\ exists rows,
         Design.array d = Np.Arr2 rows
         /\ nth_error rows 1
            = Some (map (fun p => (fst p + (snd p - fst p) * (1 # 4))%Q)
                      (Design.range d)).
Proof.
  do 2 eexists. split; [vm_compute; reflexivity|]. split; [reflexivity|].
  eapply (one_column_sample_is_spread (R_prints [[1 # 2]; [1 # 4]]) "Pb" "Pb" 2760
            2 false None empty_world).
  - vm_compute. reflexivity.
  - reflexivity.
Defined.

Lemma points_beyond_the_sample_are_dropped_witness :
  exists w1 d,
    Design.__init__ (R_prints [repeat (1 # 2) 10]) ("Pb", "Pb", 2760%Z) 3 false
      None empty_world = (w1, Ok d)
    /\ exists w2 rows,
         Design.write_files show d "inputs" w1 = (w2, Ok tt)
         /\ List.length (module_inputs w2)
            = (List.length (module_inputs w1) + 1)%nat
         /\ content (files w2) (design_points_path d "inputs")
            = cat (map csv_line (("idx" :: Design.keys d) :: rows))
         /\ List.length rows = 1%nat.
Proof.
  do 2 eexists. split; [vm_compute; reflexivity|].
  eapply (points_beyond_the_sample_are_dropped (R_prints [repeat (1 # 2) 10]) show
            "Pb" "Pb" 2760 3 false None "inputs" empty_world).
  vm_compute. reflexivity.
Defined.

Lemma design_points_table_layout_witness :
  exists w1 d,
    Design.__init__ (R_constant (1 # 2)) ("p", "Pb", 2760%Z) 2 false None
      empty_world = (w1, Ok d)
    /\ exists w2 rows,
         Design.write_files show d "inputs" w1 = (w2, Ok tt)
         /\ content (files w2) (design_points_path d "inputs")
            = cat (map csv_line (("idx" :: Design.keys d) :: rows))
         /\ Forall2 (fun pr fields =>
                       exists a0 a1 a2 a3 a4 a5 a6 a7 a8 a9,
                         snd pr = Some [a0; a1; a2; a3; a4; a5; a6; a7; a8; a9]
                         /\ fields
                            = [ fst pr; show (Np.Finite a0); show (Np.Finite a1);
                                show (Np.Finite a2); show (Np.Finite a3);
                                show (Np.Finite a4); show (Np.Finite a5);
                                show (Np.Finite a6); show (Np.Finite a7);
                                show (Np.Finite a9); "p"; show (Np.Finite 6.4);
                                show (derived_width a8 a6) ])
                    (combine (Design.points d) (Design.iter_array (Design.array d)))
                    rows.
Proof.
  do 2 eexists. split; [vm_compute; reflexivity|].
  eapply (design_points_table_layout (R_constant (1 # 2)) show "p" "Pb" 2760 2
            false None "inputs" empty_world).
  vm_compute. reflexivity.
Defined.

Lemma module_inputs_take_the_sampled_values_witness :
  exists w1 d,
    Design.__init__ (R_constant (1 # 2)) ("p", "Pb", 2760%Z) 2 false None
      empty_world = (w1, Ok d)
    /\ exists w2 calls rows,
         Design.write_files show d "." w1 = (w2, Ok tt)
         /\ module_inputs w2 = (module_inputs w1 ++ calls)%list
         /\ Design.array d = Np.Arr2 rows
         /\ List.length rows = 2%nat
         /\ List.length calls = 2%nat
         /\ Forall2 (fun pr c =>
                       exists a0 a1 a2 a3 a4 a5 a6 a7 a8 a9,
                         snd pr = [a0; a1; a2; a3; a4; a5; a6; a7; a8; a9]
                         /\ c = {| ModuleInputs.outdir := "main/pPb-2760";
                                   ModuleInputs.design_point_id := fst pr;
                                   ModuleInputs.projectile := "p";
                                   ModuleInputs.target := "p";
                                   ModuleInputs.sqrts := 2760%Z;
                                   ModuleInputs.inel_nucleon_cross_section :=
                                     VFloat (Np.Finite 6.4);
                                   ModuleInputs.trento_normalization :=
                                     VFloat (Np.Finite a0);
                                   ModuleInputs.trento_fluctuation_k :=
                                     VFloat (Np.Finite a1);
                                   ModuleInputs.trento_nucleon_width :=
                                     VFloat (Np.Finite a2);
                                   ModuleInputs.tau_R := VFloat (Np.Finite a3);
                                   ModuleInputs.alpha := VFloat (Np.Finite a4);
                                   ModuleInputs.eta_over_s_at_kink :=
                                     VFloat (Np.Finite a5);
                                   ModuleInputs.zeta_over_s_max :=
                                     VFloat (Np.Finite a6);
                                   ModuleInputs.zeta_over_s_width_in_GeV :=
                                     VFloat (Np.div
                                               (Np.mul (Np.Finite (2 / 3.141592))
                                                  (Np.pow (Np.Finite a8) 4))
                                               (Np.Finite a6));
                                   ModuleInputs.zeta_over_s_T_peak_in_GeV :=
                                     VFloat (Np.Finite a7);
                                   ModuleInputs.zeta_over_s_lambda_asymm :=
                                     VFloat (Np.Finite a9) |})
                    (combine (Design.points d) rows)
                    calls.
Proof.
  do 2 eexists. split; [vm_compute; reflexivity|].
  eapply (module_inputs_take_the_sampled_values (R_constant (1 # 2)) show "p" "Pb"
            2760 2 false None "." empty_world).
  vm_compute. reflexivity.
Defined.

Lemma width_is_positive_away_from_zero_witness :
  exists w1 d,
    Design.__init__ (R_constant (1 # 2)) ("Pb", "Pb", 2760%Z) 2 false None
      empty_world = (w1, Ok d)
    /\ (1 # 1000000 <= 1 # 2)%Q /\ (1 # 2 <= 1)%Q /\ (0 <= 1 # 2)%Q
    /\ exists w2 calls,
         Design.write_files show d "inputs" w1 = (w2, Ok tt)
         /\ module_inputs w2 = (module_inputs w1 ++ calls)%list
         /\ Forall2 (fun ps c =>
                       forall u6 u8,
                         List.length (snd ps) = 10%nat ->
                         nth_error (snd ps) 6 = Some u6 ->
                         nth_error (snd ps) 8 = Some u8 ->
                         (1 # 1000000 <= u6)%Q -> (u6 <= 1)%Q ->
                         (0 <= u8)%Q -> (u8 <= 1)%Q ->
                         let zmax := (0.0 + (0.3 - 0.0) * u6)%Q in
                         let area_fourth :=
                           (Design.area_fourth_min
                            + (Design.area_fourth_max - Design.area_fourth_min)
                              * u8)%Q in
                         exists width,
                           ModuleInputs.zeta_over_s_width_in_GeV c
                           = VFloat (Np.Finite width)
                           /\ (0 < width)%Q
                           /\ (width <= 130000)%Q
                           /\ (width * zmax == 2 / 3.141592 * area_fourth ^ 4)%Q)
                    (combine (Design.points d)
                       [repeat (1 # 2) 10; repeat (1 # 2) 10])
                    calls.
Proof.
  do 2 eexists. split; [vm_compute; reflexivity|].
  split; [lra|]. split; [lra|]. split; [lra|].
  eapply (width_is_positive_away_from_zero (R_constant (1 # 2)) show "Pb" "Pb"
            2760 2 false None "inputs" empty_world).
  vm_compute. reflexivity.
Defined.

Lemma write_files_makes_the_directory_and_the_tables_witness :
  exists w1 d,
    Design.__init__ (R_constant (1 # 2)) ("Pb", "Pb", 2760%Z) 2 false None
      empty_world = (w1, Ok d)
    /\ exists w2,
         Design.write_files show d "." w1 = (w2, Ok tt)
         /\ In "main/PbPb-2760" (dirs w2)
         /\ incl (dirs w1) (dirs w2)
         /\ (exists t, getitem (files w2)
                         "./design_points_main_PbPb-2760.dat" = Ok t)
         /\ (exists t, getitem (files w2)
                         "./design_ranges_main_PbPb-2760.dat" = Ok t).
Proof.
  do 2 eexists. split; [vm_compute; reflexivity|].
  eapply (write_files_makes_the_directory_and_the_tables (R_constant (1 # 2)) show
            "Pb" "Pb" 2760 2 false None "." empty_world).
  vm_compute. reflexivity.
Defined.

Lemma write_files_twice_overwrites_witness :
  exists w1 d,
    Design.__init__ (R_constant (1 # 2)) ("Pb", "Pb", 2760%Z) 2 false None
      empty_world = (w1, Ok d)
    /\ exists w2 w3 calls,
         Design.write_files show d "inputs" w1 = (w2, Ok tt)
         /\ Design.write_files show d "inputs" w2 = (w3, Ok tt)
         /\ files w3 = files w2 /\ dirs w3 = dirs w2
         /\ module_inputs w2 = (module_inputs w1 ++ calls)%list
         /\ module_inputs w3 = (module_inputs w2 ++ calls)%list.
Proof.
  do 2 eexists. split; [vm_compute; reflexivity|].
  eapply (write_files_twice_overwrites (R_constant (1 # 2)) show "Pb" "Pb" 2760 2
            false None "inputs" empty_world).
  vm_compute. reflexivity.
Defined.

Lemma validation_design_spares_the_main_one_witness :
  exists w1 dm w2 dv,
    Design.__init__ (R_constant (1 # 2)) ("Pb", "Pb", 2760%Z) 2 false None
      empty_world = (w1, Ok dm)
    /\ Design.__init__ (R_constant (1 # 2)) ("Pb", "Pb", 2760%Z) 1 true None
         empty_world = (w2, Ok dv)
    /\ exists wb wc,
         Design.write_files show dm "inputs" empty_world = (wb, Ok tt)
         /\ Design.write_files show dv "inputs" wb = (wc, Ok tt)
         /\ getitem (files wc) (design_points_path dm "inputs")
            = getitem (files wb) (design_points_path dm "inputs")
         /\ getitem (files wc) (design_ranges_path dm "inputs")
            = getitem (files wb) (design_ranges_path dm "inputs").
Proof.
  do 4 eexists. split; [vm_compute; reflexivity|].
  split; [vm_compute; reflexivity|].
  eapply (validation_design_spares_the_main_one (R_constant (1 # 2)) show "Pb" "Pb"
            2760 2 1 None None empty_world empty_world).
  - vm_compute. reflexivity.
  - vm_compute. reflexivity.
Defined.

Lemma range_table_is_the_same_for_every_design_witness :
  exists w1 d w1' d',
    Design.__init__ (R_constant (1 # 2)) ("Pb", "Pb", 2760%Z) 2 false None
      empty_world = (w1, Ok d)
    /\ Design.__init__ (R_constant (1 # 2)) ("Xe", "Xe", 2760%Z) 1 true (Some 7%Z)
         empty_world = (w1', Ok d')
    /\ exists w2 w2',
         Design.write_files show d "inputs" w1 = (w2, Ok tt)
         /\ Design.write_files show d' "elsewhere" w1' = (w2', Ok tt)
         /\ content (files w2) (design_ranges_path d "inputs")
            = content (files w2') (design_ranges_path d' "elsewhere").
Proof.
  do 4 eexists. split; [vm_compute; reflexivity|].
  split; [vm_compute; reflexivity|].
  eapply (range_table_is_the_same_for_every_design (R_constant (1 # 2)) show
            "Pb" "Pb" 2760 2 false None empty_world _ _ "inputs"
            "Xe" "Xe" 2760 1 true (Some 7%Z) empty_world _ _ "elsewhere").
  - vm_compute. reflexivity.
  - vm_compute. reflexivity.
Defined.

Lemma script_tells_the_arguments_apart_witness :
  lhs_script 450829120 500 10 = lhs_script 450829120 500 10
  /\ (450829120 = 450829120 /\ 500 = 500 /\ 10 = 10)%Z.
Proof.
  split; [reflexivity|].
  apply (script_tells_the_arguments_apart 450829120 500 10 450829120 500 10).
  reflexivity.
Defined.

Lemma main_writes_every_design_witness :
  R_answers (R_constant (1 # 2)) 2
  /\ Forall (fun s : string * string * Z => snd s = 2760%Z)
       [("Pb", "Pb", 2760%Z); ("Xe", "Xe", 2760%Z)]
  /\ exists w',
       main (R_constant (1 # 2)) show 2 [("Pb", "Pb", 2760%Z); ("Xe", "Xe", 2760%Z)]
         "inputs" empty_world = (w', Ok tt)
       /\ R_runs w'
          = (R_runs empty_world
             ++ campaign_runs 2 [("Pb", "Pb", 2760%Z); ("Xe", "Xe", 2760%Z)])%list
       /\ forall s validation,
            In s [("Pb", "Pb", 2760%Z); ("Xe", "Xe", 2760%Z)] ->
            (exists t, getitem (files w')
                         (table_path "inputs" "points" validation s) = Ok t)
            /\ (exists t, getitem (files w')
                            (table_path "inputs" "ranges" validation s) = Ok t).
Proof.
  assert (HR : R_answers (R_constant (1 # 2)) 2)
    by (intros i seed; split; reflexivity).
  assert (Hall : Forall (fun s : string * string * Z => snd s = 2760%Z)
                   [("Pb", "Pb", 2760%Z); ("Xe", "Xe", 2760%Z)])
    by (repeat constructor).
  split; [exact HR|]. split; [exact Hall|].
  exact (main_writes_every_design (R_constant (1 # 2)) show 2 "inputs"
           [("Pb", "Pb", 2760%Z); ("Xe", "Xe", 2760%Z)] empty_world HR Hall).
Defined.

Lemma main_stops_at_an_unknown_energy_witness :
  exists w1,
    main (R_constant (1 # 2)) show 1 [("Pb", "Pb", 2760%Z)] "inputs" empty_world
    = (w1, Ok tt)
    /\ 200%Z <> 2760%Z
    /\ exists w',
         main (R_constant (1 # 2)) show 1
           ([("Pb", "Pb", 2760%Z)] ++ ("Au", "Au", 200%Z) :: [("Xe", "Xe", 2760%Z)])
           "inputs" empty_world
         = (w', Raise (KeyError (KInt 200)))
         /\ files w' = files w1 /\ dirs w' = dirs w1
         /\ module_inputs w' = module_inputs w1 /\ R_runs w' = R_runs w1
         /\ stdout w'
            = app (stdout w1) ["self.system = "; "Au" ++ "Au" ++ "-" ++ str_int 200].
Proof.
  eexists. split; [vm_compute; reflexivity|]. split; [discriminate|].
  eapply (main_stops_at_an_unknown_energy (R_constant (1 # 2)) show 1 "inputs"
            [("Pb", "Pb", 2760%Z)] "Au" "Au" 200 [("Xe", "Xe", 2760%Z)] empty_world).
  - vm_compute. reflexivity.
  - discriminate.
Defined.
